(** * The gym ZMQ proxy: RPC session protocol

    A shallow embedding of [gym/envs/proxy/server.py] (class
    [GymProxyZmqServer]) and [gym/envs/proxy/client.py] (classes
    [GymProxyClientSocket] and [GymProxyClient]), and the properties of the
    session protocol they implement.

    Conventions of the embedding.
    - Python values that travel in RPC envelopes are the JSON-like type
      [value]; a Python dict is an association list in insertion order.
    - A Python method is a computation in the monad [M]: it threads the
      mutable object state and either returns or raises.  Everything a method
      wrote before it raised stays written, as in Python.
    - The codec [zmq_serialize] (load_msg, dump_msg, mk_random_cookie), the
      environment behind [self.env] and [make_env] are collaborators of the
      two classes; they are taken as parameters (Sections [Server], [Client]).
    - [logger.debug] and [logger.info] calls are not modelled; the
      [logger.warn] of the client is.
    - The interpreter is Python 3: a [string] holds a str as its UTF-8
      bytes, and the texts of built-in exceptions are those of Python 3.
    - The two server threads (run_main, run_monitor) are interleaved at the
      granularity of one handled message or one handled monitor event. *)

From Stdlib Require Import String Ascii List ZArith Bool Lia.
Import ListNotations.
Local Open Scope string_scope.
Local Open Scope Z_scope.

(** ** Python values *)

#[warnings="-register-all"]
Inductive value : Type :=
| VNone
| VBool (b : bool)
| VInt (z : Z)
| VStr (s : string)
| VList (l : list value)
| VDict (d : list (string * value)).

(** [d.get(k)] on the association list of a dict. *)
Fixpoint assoc {A : Type} (k : string) (d : list (string * A)) : option A :=
  match d with
  | [] => None
  | (k', v) :: d' => if String.eqb k k' then Some v else assoc k d'
  end.

(** Python's numeric tower as far as JSON values go: [True == 1]. *)
Definition as_int (v : value) : option Z :=
  match v with
  | VBool b => Some (Z.b2z b)
  | VInt z => Some z
  | _ => None
  end.

(** Python's [a == b] on JSON-like values: numbers by value, strings and lists
    structurally, dicts key by key whatever the insertion order. *)
Fixpoint value_eqb (a b : value) {struct a} : bool :=
  match a with
  | VNone => match b with VNone => true | _ => false end
  | VBool x =>
      match as_int b with Some z => Z.eqb (Z.b2z x) z | None => false end
  | VInt x =>
      match as_int b with Some z => Z.eqb x z | None => false end
  | VStr s => match b with VStr t => String.eqb s t | _ => false end
  | VList l =>
      match b with
      | VList m =>
          (fix all2 (l : list value) (m : list value) {struct l} : bool :=
             match l, m with
             | [], [] => true
             | x :: l', y :: m' => value_eqb x y && all2 l' m'
             | _, _ => false
             end) l m
      | _ => false
      end
  | VDict d =>
      match b with
      | VDict e =>
          Nat.eqb (length d) (length e) &&
          (fix all (d : list (string * value)) {struct d} : bool :=
             match d with
             | [] => true
             | (k, v) :: d' =>
                 match assoc k e with
                 | Some w => value_eqb v w
                 | None => false
                 end && all d'
             end) d
      | _ => false
      end
  end.

(** Python's [a != b]. *)
Definition py_ne (a b : value) : bool := negb (value_eqb a b).

(** Python's [v is None] and [v is not None]. *)
Definition is_None (v : value) : bool :=
  match v with VNone => true | _ => false end.

(** ** Exceptions and outcomes *)

(** An exception as [handle_msg] sees it through [sys.exc_info()]: the name
    of its class and the text [str(ex_value)]. *)
Record exn : Type := mkExn { ex_type : string; ex_str : string }.

(** [str(ex_type)].  Python 3 prints a class as [<class 'Name'>]; the texts
    of the exceptions the interpreter raises itself are those of Python 3
    too. *)
Definition str_type (e : exn) : string := "<class '" ++ ex_type e ++ "'>".

Inductive outcome (A : Type) : Type :=
| Ret (a : A)
| Raise (e : exn).
Arguments Ret {A} a.
Arguments Raise {A} e.

(** [raise Exception(msg)]. *)
Definition Exception (msg : string) : exn := mkExn "Exception" msg.
(** [str(KeyError(k))] is [repr(k)]. *)
Definition KeyError (k : string) : exn := mkExn "KeyError" ("'" ++ k ++ "'").
Definition TypeError (msg : string) : exn := mkExn "TypeError" msg.
Definition AttributeError (msg : string) : exn := mkExn "AttributeError" msg.

(** The name Python gives the type of a value in its error messages. *)
Definition type_name (v : value) : string :=
  match v with
  | VNone => "NoneType"
  | VBool _ => "bool"
  | VInt _ => "int"
  | VStr _ => "str"
  | VList _ => "list"
  | VDict _ => "dict"
  end.

(** [v[k]] for a string key [k]: only a dict has string keys. *)
Definition subscript (v : value) (k : string) : outcome value :=
  match v with
  | VDict d =>
      match assoc k d with
      | Some x => Ret x
      | None => Raise (KeyError k)
      end
  | VList _ =>
      Raise (TypeError "list indices must be integers or slices, not str")
  | VStr _ => Raise (TypeError "string indices must be integers")
  | _ => Raise (TypeError ("'" ++ type_name v ++ "' object is not subscriptable"))
  end.

(** [v.get(k, None)]: only a dict has the method. *)
Definition dict_get (v : value) (k : string) : outcome value :=
  match v with
  | VDict d =>
      match assoc k d with
      | Some x => Ret x
      | None => Ret VNone
      end
  | _ => Raise (AttributeError
                  ("'" ++ type_name v ++ "' object has no attribute 'get'"))
  end.

(** Python's built-in [repr] is taken as given. *)
Class Builtins : Type := {
  py_repr : value -> string
}.

(** [str(v)], as [%s] in a format string and [str(Exception(v))] apply it:
    a string is itself, anything else is its [repr]. *)
Definition py_str `{Builtins} (v : value) : string :=
  match v with
  | VStr s => s
  | _ => py_repr v
  end.

(** ** The monad of Python methods: state and exceptions *)

Definition M (S A : Type) : Type := S -> outcome A * S.

Definition ret {S A : Type} (a : A) : M S A := fun s => (Ret a, s).
Definition raise {S A : Type} (e : exn) : M S A := fun s => (Raise e, s).
Definition bind {S A B : Type} (m : M S A) (k : A -> M S B) : M S B :=
  fun s =>
    match m s with
    | (Ret a, s') => k a s'
    | (Raise e, s') => (Raise e, s')
    end.
(** [try: body / except: handler]; the bare [except] catches everything. *)
Definition try_except {S A : Type} (body : M S A) (handler : exn -> M S A)
  : M S A :=
  fun s =>
    match body s with
    | (Ret a, s') => (Ret a, s')
    | (Raise e, s') => handler e s'
    end.
Definition lift {S A : Type} (o : outcome A) : M S A := fun s => (o, s).
Definition gets {S A : Type} (f : S -> A) : M S A := fun s => (Ret (f s), s).
Definition modify {S : Type} (f : S -> S) : M S unit := fun s => (Ret tt, f s).

Declare Scope py_scope.
Delimit Scope py_scope with py.
Notation "x <- m ;; k" := (bind m (fun x => k))
  (at level 61, m at next level, right associativity) : py_scope.
Notation "m ;;; k" := (bind m (fun _ => k))
  (at level 61, right associativity) : py_scope.

Local Open Scope py_scope.

(** ** The environment behind the server *)

(** The capability interface the server consumes from [self.env]: three
    descriptors read as attributes and four methods, each of which may mutate
    the environment object and may raise.  [E] is the state of the object. *)
Class Environment (E : Type) : Type := {
  observation_space : E -> value;
  action_space : E -> value;
  reward_range : E -> value;
  env_reset : M E value;
  env_step : value -> M E (value * value * value * value);
  env_render : value -> value -> M E value;
  env_close : M E unit
}.

(** The injected factory [make_env] of the server. *)
Class Factory (E : Type) : Type := {
  make_env : value -> outcome E
}.

(** [zmq_serialize.mk_random_cookie()], drawing on a random source [R]. *)
Class Cookies (R : Type) : Type := {
  mk_random_cookie : R -> string * R
}.

(** The codec [zmq_serialize.load_msg] and [zmq_serialize.dump_msg] between
    envelopes and the multipart messages of the socket. *)
Class Codec (multipart : Type) : Type := {
  load_msg : multipart -> outcome value;
  dump_msg : value -> multipart
}.

(** One invocation of the environment factory or of an environment method. *)
Inductive env_call : Type :=
| CallMake (name : value)
| CallReset
| CallStep (action : value)
| CallRender (mode close : value)
| CallClose.

(** Events of the monitor socket; the server looks at two of them. *)
Inductive monitor_event : Type :=
| EVENT_ACCEPTED
| EVENT_DISCONNECTED
| EVENT_OTHER (code : Z).

(** ** server.py: GymProxyZmqServer *)

Section Server.

(** The state [E] of the environment object, the random source [R] and
    the multipart messages of the socket, with their interfaces. *)
Context {E R multipart : Type}.
Context `{Environment E} `{Factory E} `{Cookies R} `{Codec multipart}.
Context `{Builtins}.

(** The attributes of a [GymProxyZmqServer] that its methods read and write,
    the random source, and what the object did to the outside: the calls it
    made on environments and the replies it sent on [self.sock].
    [__init__] assigns [env] and [env_name] but neither [session_id] nor
    [op_count]: these two are [None] here until first assigned, and reading
    them before is an AttributeError. *)
Record server : Type := mkServer {
  env : option E;
  env_name : value;
  session_id : option string;
  op_count : option Z;
  rng : R;
  calls : list env_call;
  sent : list multipart
}.

Definition set_env (x : option E) (w : server) : server :=
  mkServer x (env_name w) (session_id w) (op_count w) (rng w) (calls w) (sent w).
Definition set_env_name (x : value) (w : server) : server :=
  mkServer (env w) x (session_id w) (op_count w) (rng w) (calls w) (sent w).
Definition set_session_id (x : option string) (w : server) : server :=
  mkServer (env w) (env_name w) x (op_count w) (rng w) (calls w) (sent w).
Definition set_op_count (x : option Z) (w : server) : server :=
  mkServer (env w) (env_name w) (session_id w) x (rng w) (calls w) (sent w).
Definition set_rng (x : R) (w : server) : server :=
  mkServer (env w) (env_name w) (session_id w) (op_count w) x (calls w) (sent w).
Definition log_call (c : env_call) (w : server) : server :=
  mkServer (env w) (env_name w) (session_id w) (op_count w) (rng w)
           (calls w ++ [c]) (sent w).
Definition send_multipart (tx : multipart) (w : server) : server :=
  mkServer (env w) (env_name w) (session_id w) (op_count w) (rng w)
           (calls w) (sent w ++ [tx]).

(** [__init__]: no environment, no name. *)
Definition init (r : R) : server :=
  mkServer None VNone None None r [] [].

Definition no_attribute (obj attr : string) : exn :=
  AttributeError ("'" ++ obj ++ "' object has no attribute '" ++ attr ++ "'").

(** Reading [self.session_id]. *)
Definition get_session_id : M server string :=
  fun w =>
    match session_id w with
    | Some sid => (Ret sid, w)
    | None => (Raise (no_attribute "GymProxyZmqServer" "session_id"), w)
    end.

(** [self.env.<attr>(...)]: looking the method up on [None] raises; otherwise
    the method runs on the environment object, which keeps what the method
    did to it also when the method raises. *)
Definition call_env {A : Type} (attr : string) (c : env_call) (m : M E A)
  : M server A :=
  fun w =>
    match env w with
    | None => (Raise (no_attribute "NoneType" attr), w)
    | Some e =>
        let (r, e') := m e in
        (r, log_call c (set_env (Some e') w))
    end.

(** [self.env.<attr>] for a descriptor. *)
Definition read_env (attr : string) (f : E -> value) : M server value :=
  fun w =>
    match env w with
    | None => (Raise (no_attribute "NoneType" attr), w)
    | Some e => (Ret (f e), w)
    end.

(** [opened]: on a connection accepted. *)
Definition opened : M server unit :=
  modify (set_env_name VNone) ;;;
  modify (set_op_count (Some 0)).

(** [closed]: on a disconnect. *)
Definition closed : M server unit :=
  modify (set_env_name VNone) ;;;
  e <- gets env ;;
  (match e with
   | Some _ => call_env "close" CallClose env_close
   | None => ret tt
   end) ;;;
  modify (set_env None).

(** The session gate every handler but [handle_setup] starts with. *)
Definition check_session_id (params : value) : M server unit :=
  given <- lift (subscript params "session_id") ;;
  sid <- get_session_id ;;
  if py_ne given (VStr sid) then raise (Exception "Wrong session id")
  else ret tt.

Definition handle_reset (params : value) : M server value :=
  check_session_id params ;;;
  obs <- call_env "reset" CallReset env_reset ;;
  sid <- get_session_id ;;
  ret (VDict [("obs", obs); ("session_id", VStr sid)]).

Definition handle_step (params : value) : M server value :=
  check_session_id params ;;;
  action <- lift (subscript params "action") ;;
  r <- call_env "step" (CallStep action) (env_step action) ;;
  let '(obs, reward, done, info) := r in
  sid <- get_session_id ;;
  ret (VDict [("obs", obs); ("reward", reward); ("done", done);
              ("info", info); ("session_id", VStr sid)]).

Definition handle_setup (params : value) : M server value :=
  name <- gets env_name ;;
  (if is_None name then ret tt else raise (Exception "Already set up")) ;;;
  arg <- lift (subscript params "env_name") ;;
  modify (log_call (CallMake arg)) ;;;
  e <- lift (make_env arg) ;;
  modify (set_env (Some e)) ;;;
  arg' <- lift (subscript params "env_name") ;;
  modify (set_env_name arg') ;;;
  r <- gets rng ;;
  let (cookie, r') := mk_random_cookie r in
  modify (fun w => set_session_id (Some cookie) (set_rng r' w)) ;;;
  os <- read_env "observation_space" observation_space ;;
  acs <- read_env "action_space" action_space ;;
  rr <- read_env "reward_range" reward_range ;;
  sid <- get_session_id ;;
  ret (VDict [("observation_space", os); ("action_space", acs);
              ("reward_range", rr); ("session_id", VStr sid)]).

(** [if self.env:] is read as [self.env is not None]: an environment object
    is true unless its class says otherwise. *)
Definition handle_close (params : value) : M server value :=
  check_session_id params ;;;
  modify (set_env_name VNone) ;;;
  e <- gets env ;;
  (match e with
   | Some _ => call_env "close" CallClose env_close
   | None => ret tt
   end) ;;;
  modify (set_env None) ;;;
  sid <- get_session_id ;;
  ret (VDict [("session_id", VStr sid)]).

Definition handle_render (params : value) : M server value :=
  check_session_id params ;;;
  mode <- lift (subscript params "mode") ;;
  close <- lift (subscript params "close") ;;
  img <- call_env "render" (CallRender mode close) (env_render mode close) ;;
  sid <- get_session_id ;;
  ret (VDict [("img", img); ("session_id", VStr sid)]).

(** The reply envelope and the local function [reply] of [handle_msg]. *)
Definition envelope (rpc_result rpc_error : value) : value :=
  VDict [("result", rpc_result); ("error", rpc_error)].

Definition reply (rpc_result rpc_error : value) : M server unit :=
  modify (send_multipart (dump_msg (envelope rpc_result rpc_error))).

(** [self.op_count += 1]. *)
Definition incr_op_count : M server unit :=
  fun w =>
    match op_count w with
    | Some n => (Ret tt, set_op_count (Some (n + 1)) w)
    | None => (Raise (no_attribute "GymProxyZmqServer" "op_count"), w)
    end.

(** The text of the error reply: [str(ex_type) + ': ' + str(ex_value)]. *)
Definition error_text (e : exn) : string :=
  str_type e ++ ": " ++ ex_str e.

(** The [if]/[elif] chain of [handle_msg] on [rpc_method]. *)
Definition dispatch (rpc_method rpc_params : value) : M server unit :=
  if value_eqb rpc_method (VStr "step") then
    r <- handle_step rpc_params ;; reply r VNone
  else if value_eqb rpc_method (VStr "reset") then
    r <- handle_reset rpc_params ;; reply r VNone
  else if value_eqb rpc_method (VStr "setup") then
    r <- handle_setup rpc_params ;; reply r VNone
  else if value_eqb rpc_method (VStr "close") then
    r <- handle_close rpc_params ;; reply r VNone
  else if value_eqb rpc_method (VStr "render") then
    r <- handle_render rpc_params ;; reply r VNone
  else raise (Exception ("unknown method " ++ py_str rpc_method)).

(** [handle_msg]: decoding, the two [get]s and the counter come before the
    [try]; only the dispatch is inside it. *)
Definition handle_msg (rx : multipart) : M server unit :=
  rpc <- lift (load_msg rx) ;;
  rpc_method <- lift (dict_get rpc "method") ;;
  rpc_params <- lift (dict_get rpc "params") ;;
  incr_op_count ;;;
  try_except (dispatch rpc_method rpc_params)
             (fun e => reply VNone (VStr (error_text e))).

(** *** The two threads *)

(** What reaches the server: a request on the REP socket or an event on the
    monitor socket. *)
Inductive event : Type :=
| Recv (rx : multipart)
| Monitor (ev : monitor_event).

(** The object together with its two threads.  A thread whose loop let an
    exception through has ended: [while True] has no handler of its own. *)
Record process : Type := mkProcess {
  obj : server;
  main_alive : bool;
  monitor_alive : bool
}.

Definition boot (r : R) : process := mkProcess (init r) true true.

(** One iteration of [run_main]. *)
Definition run_main_iter (rx : multipart) (p : process) : process :=
  if main_alive p then
    match handle_msg rx (obj p) with
    | (Ret _, w) => mkProcess w true (monitor_alive p)
    | (Raise _, w) => mkProcess w false (monitor_alive p)
    end
  else p.

(** One iteration of [run_monitor]. *)
Definition run_monitor_iter (ev : monitor_event) (p : process) : process :=
  if monitor_alive p then
    match ev with
    | EVENT_DISCONNECTED =>
        match closed (obj p) with
        | (Ret _, w) => mkProcess w (main_alive p) true
        | (Raise _, w) => mkProcess w (main_alive p) false
        end
    | EVENT_ACCEPTED =>
        match opened (obj p) with
        | (Ret _, w) => mkProcess w (main_alive p) true
        | (Raise _, w) => mkProcess w (main_alive p) false
        end
    | EVENT_OTHER _ => p
    end
  else p.

Definition deliver (p : process) (ev : event) : process :=
  match ev with
  | Recv rx => run_main_iter rx p
  | Monitor ev => run_monitor_iter ev p
  end.

(** The process after a sequence of requests and monitor events. *)
Definition run (evs : list event) (p : process) : process :=
  fold_left deliver evs p.

End Server.

(** ** client.py: URL expansion *)

(** A [string] holds a Python str as its UTF-8 bytes.  The pattern of
    [re.sub] is a str pattern, so its [\w] works on the characters of the
    URL, not on its bytes: it matches the characters for which
    [str.isalnum()] holds, and the underscore. *)

(** The characters [\w] matches, as the ranges of their code points, in
    increasing order (CPython 3.11, Unicode 14.0.0). *)
Definition word_ranges : list (N * N) :=
  [(48, 57); (65, 90); (95, 95); (97, 122); (170, 170); (178, 179);
   (181, 181); (185, 186); (188, 190); (192, 214); (216, 246); (248, 705);
   (710, 721); (736, 740); (748, 748); (750, 750); (880, 884); (886, 887);
   (890, 893); (895, 895); (902, 902); (904, 906); (908, 908); (910, 929);
   (931, 1013); (1015, 1153); (1162, 1327); (1329, 1366); (1369, 1369);
   (1376, 1416); (1488, 1514); (1519, 1522); (1568, 1610); (1632, 1641);
   (1646, 1647); (1649, 1747); (1749, 1749); (1765, 1766); (1774, 1788);
   (1791, 1791); (1808, 1808); (1810, 1839); (1869, 1957); (1969, 1969);
   (1984, 2026); (2036, 2037); (2042, 2042); (2048, 2069); (2074, 2074);
   (2084, 2084); (2088, 2088); (2112, 2136); (2144, 2154); (2160, 2183);
   (2185, 2190); (2208, 2249); (2308, 2361); (2365, 2365); (2384, 2384);
   (2392, 2401); (2406, 2415); (2417, 2432); (2437, 2444); (2447, 2448);
   (2451, 2472); (2474, 2480); (2482, 2482); (2486, 2489); (2493, 2493);
   (2510, 2510); (2524, 2525); (2527, 2529); (2534, 2545); (2548, 2553);
   (2556, 2556); (2565, 2570); (2575, 2576); (2579, 2600); (2602, 2608);
   (2610, 2611); (2613, 2614); (2616, 2617); (2649, 2652); (2654, 2654);
   (2662, 2671); (2674, 2676); (2693, 2701); (2703, 2705); (2707, 2728);
   (2730, 2736); (2738, 2739); (2741, 2745); (2749, 2749); (2768, 2768);
   (2784, 2785); (2790, 2799); (2809, 2809); (2821, 2828); (2831, 2832);
   (2835, 2856); (2858, 2864); (2866, 2867); (2869, 2873); (2877, 2877);
   (2908, 2909); (2911, 2913); (2918, 2927); (2929, 2935); (2947, 2947);
   (2949, 2954); (2958, 2960); (2962, 2965); (2969, 2970); (2972, 2972);
   (2974, 2975); (2979, 2980); (2984, 2986); (2990, 3001); (3024, 3024);
   (3046, 3058); (3077, 3084); (3086, 3088); (3090, 3112); (3114, 3129);
   (3133, 3133); (3160, 3162); (3165, 3165); (3168, 3169); (3174, 3183);
   (3192, 3198); (3200, 3200); (3205, 3212); (3214, 3216); (3218, 3240);
   (3242, 3251); (3253, 3257); (3261, 3261); (3293, 3294); (3296, 3297);
   (3302, 3311); (3313, 3314); (3332, 3340); (3342, 3344); (3346, 3386);
   (3389, 3389); (3406, 3406); (3412, 3414); (3416, 3425); (3430, 3448);
   (3450, 3455); (3461, 3478); (3482, 3505); (3507, 3515); (3517, 3517);
   (3520, 3526); (3558, 3567); (3585, 3632); (3634, 3635); (3648, 3654);
   (3664, 3673); (3713, 3714); (3716, 3716); (3718, 3722); (3724, 3747);
   (3749, 3749); (3751, 3760); (3762, 3763); (3773, 3773); (3776, 3780);
   (3782, 3782); (3792, 3801); (3804, 3807); (3840, 3840); (3872, 3891);
   (3904, 3911); (3913, 3948); (3976, 3980); (4096, 4138); (4159, 4169);
   (4176, 4181); (4186, 4189); (4193, 4193); (4197, 4198); (4206, 4208);
   (4213, 4225); (4238, 4238); (4240, 4249); (4256, 4293); (4295, 4295);
   (4301, 4301); (4304, 4346); (4348, 4680); (4682, 4685); (4688, 4694);
   (4696, 4696); (4698, 4701); (4704, 4744); (4746, 4749); (4752, 4784);
   (4786, 4789); (4792, 4798); (4800, 4800); (4802, 4805); (4808, 4822);
   (4824, 4880); (4882, 4885); (4888, 4954); (4969, 4988); (4992, 5007);
   (5024, 5109); (5112, 5117); (5121, 5740); (5743, 5759); (5761, 5786);
   (5792, 5866); (5870, 5880); (5888, 5905); (5919, 5937); (5952, 5969);
   (5984, 5996); (5998, 6000); (6016, 6067); (6103, 6103); (6108, 6108);
   (6112, 6121); (6128, 6137); (6160, 6169); (6176, 6264); (6272, 6276);
   (6279, 6312); (6314, 6314); (6320, 6389); (6400, 6430); (6470, 6509);
   (6512, 6516); (6528, 6571); (6576, 6601); (6608, 6618); (6656, 6678);
   (6688, 6740); (6784, 6793); (6800, 6809); (6823, 6823); (6917, 6963);
   (6981, 6988); (6992, 7001); (7043, 7072); (7086, 7141); (7168, 7203);
   (7232, 7241); (7245, 7293); (7296, 7304); (7312, 7354); (7357, 7359);
   (7401, 7404); (7406, 7411); (7413, 7414); (7418, 7418); (7424, 7615);
   (7680, 7957); (7960, 7965); (7968, 8005); (8008, 8013); (8016, 8023);
   (8025, 8025); (8027, 8027); (8029, 8029); (8031, 8061); (8064, 8116);
   (8118, 8124); (8126, 8126); (8130, 8132); (8134, 8140); (8144, 8147);
   (8150, 8155); (8160, 8172); (8178, 8180); (8182, 8188); (8304, 8305);
   (8308, 8313); (8319, 8329); (8336, 8348); (8450, 8450); (8455, 8455);
   (8458, 8467); (8469, 8469); (8473, 8477); (8484, 8484); (8486, 8486);
   (8488, 8488); (8490, 8493); (8495, 8505); (8508, 8511); (8517, 8521);
   (8526, 8526); (8528, 8585); (9312, 9371); (9450, 9471); (10102, 10131);
   (11264, 11492); (11499, 11502); (11506, 11507); (11517, 11517);
   (11520, 11557); (11559, 11559); (11565, 11565); (11568, 11623);
   (11631, 11631); (11648, 11670); (11680, 11686); (11688, 11694);
   (11696, 11702); (11704, 11710); (11712, 11718); (11720, 11726);
   (11728, 11734); (11736, 11742); (11823, 11823); (12293, 12295);
   (12321, 12329); (12337, 12341); (12344, 12348); (12353, 12438);
   (12445, 12447); (12449, 12538); (12540, 12543); (12549, 12591);
   (12593, 12686); (12690, 12693); (12704, 12735); (12784, 12799);
   (12832, 12841); (12872, 12879); (12881, 12895); (12928, 12937);
   (12977, 12991); (13312, 19903); (19968, 42124); (42192, 42237);
   (42240, 42508); (42512, 42539); (42560, 42606); (42623, 42653);
   (42656, 42735); (42775, 42783); (42786, 42888); (42891, 42954);
   (42960, 42961); (42963, 42963); (42965, 42969); (42994, 43009);
   (43011, 43013); (43015, 43018); (43020, 43042); (43056, 43061);
   (43072, 43123); (43138, 43187); (43216, 43225); (43250, 43255);
   (43259, 43259); (43261, 43262); (43264, 43301); (43312, 43334);
   (43360, 43388); (43396, 43442); (43471, 43481); (43488, 43492);
   (43494, 43518); (43520, 43560); (43584, 43586); (43588, 43595);
   (43600, 43609); (43616, 43638); (43642, 43642); (43646, 43695);
   (43697, 43697); (43701, 43702); (43705, 43709); (43712, 43712);
   (43714, 43714); (43739, 43741); (43744, 43754); (43762, 43764);
   (43777, 43782); (43785, 43790); (43793, 43798); (43808, 43814);
   (43816, 43822); (43824, 43866); (43868, 43881); (43888, 44002);
   (44016, 44025); (44032, 55203); (55216, 55238); (55243, 55291);
   (63744, 64109); (64112, 64217); (64256, 64262); (64275, 64279);
   (64285, 64285); (64287, 64296); (64298, 64310); (64312, 64316);
   (64318, 64318); (64320, 64321); (64323, 64324); (64326, 64433);
   (64467, 64829); (64848, 64911); (64914, 64967); (65008, 65019);
   (65136, 65140); (65142, 65276); (65296, 65305); (65313, 65338);
   (65345, 65370); (65382, 65470); (65474, 65479); (65482, 65487);
   (65490, 65495); (65498, 65500); (65536, 65547); (65549, 65574);
   (65576, 65594); (65596, 65597); (65599, 65613); (65616, 65629);
   (65664, 65786); (65799, 65843); (65856, 65912); (65930, 65931);
   (66176, 66204); (66208, 66256); (66273, 66299); (66304, 66339);
   (66349, 66378); (66384, 66421); (66432, 66461); (66464, 66499);
   (66504, 66511); (66513, 66517); (66560, 66717); (66720, 66729);
   (66736, 66771); (66776, 66811); (66816, 66855); (66864, 66915);
   (66928, 66938); (66940, 66954); (66956, 66962); (66964, 66965);
   (66967, 66977); (66979, 66993); (66995, 67001); (67003, 67004);
   (67072, 67382); (67392, 67413); (67424, 67431); (67456, 67461);
   (67463, 67504); (67506, 67514); (67584, 67589); (67592, 67592);
   (67594, 67637); (67639, 67640); (67644, 67644); (67647, 67669);
   (67672, 67702); (67705, 67742); (67751, 67759); (67808, 67826);
   (67828, 67829); (67835, 67867); (67872, 67897); (67968, 68023);
   (68028, 68047); (68050, 68096); (68112, 68115); (68117, 68119);
   (68121, 68149); (68160, 68168); (68192, 68222); (68224, 68255);
   (68288, 68295); (68297, 68324); (68331, 68335); (68352, 68405);
   (68416, 68437); (68440, 68466); (68472, 68497); (68521, 68527);
   (68608, 68680); (68736, 68786); (68800, 68850); (68858, 68899);
   (68912, 68921); (69216, 69246); (69248, 69289); (69296, 69297);
   (69376, 69415); (69424, 69445); (69457, 69460); (69488, 69505);
   (69552, 69579); (69600, 69622); (69635, 69687); (69714, 69743);
   (69745, 69746); (69749, 69749); (69763, 69807); (69840, 69864);
   (69872, 69881); (69891, 69926); (69942, 69951); (69956, 69956);
   (69959, 69959); (69968, 70002); (70006, 70006); (70019, 70066);
   (70081, 70084); (70096, 70106); (70108, 70108); (70113, 70132);
   (70144, 70161); (70163, 70187); (70272, 70278); (70280, 70280);
   (70282, 70285); (70287, 70301); (70303, 70312); (70320, 70366);
   (70384, 70393); (70405, 70412); (70415, 70416); (70419, 70440);
   (70442, 70448); (70450, 70451); (70453, 70457); (70461, 70461);
   (70480, 70480); (70493, 70497); (70656, 70708); (70727, 70730);
   (70736, 70745); (70751, 70753); (70784, 70831); (70852, 70853);
   (70855, 70855); (70864, 70873); (71040, 71086); (71128, 71131);
   (71168, 71215); (71236, 71236); (71248, 71257); (71296, 71338);
   (71352, 71352); (71360, 71369); (71424, 71450); (71472, 71483);
   (71488, 71494); (71680, 71723); (71840, 71922); (71935, 71942);
   (71945, 71945); (71948, 71955); (71957, 71958); (71960, 71983);
   (71999, 71999); (72001, 72001); (72016, 72025); (72096, 72103);
   (72106, 72144); (72161, 72161); (72163, 72163); (72192, 72192);
   (72203, 72242); (72250, 72250); (72272, 72272); (72284, 72329);
   (72349, 72349); (72368, 72440); (72704, 72712); (72714, 72750);
   (72768, 72768); (72784, 72812); (72818, 72847); (72960, 72966);
   (72968, 72969); (72971, 73008); (73030, 73030); (73040, 73049);
   (73056, 73061); (73063, 73064); (73066, 73097); (73112, 73112);
   (73120, 73129); (73440, 73458); (73648, 73648); (73664, 73684);
   (73728, 74649); (74752, 74862); (74880, 75075); (77712, 77808);
   (77824, 78894); (82944, 83526); (92160, 92728); (92736, 92766);
   (92768, 92777); (92784, 92862); (92864, 92873); (92880, 92909);
   (92928, 92975); (92992, 92995); (93008, 93017); (93019, 93025);
   (93027, 93047); (93053, 93071); (93760, 93846); (93952, 94026);
   (94032, 94032); (94099, 94111); (94176, 94177); (94179, 94179);
   (94208, 100343); (100352, 101589); (101632, 101640); (110576, 110579);
   (110581, 110587); (110589, 110590); (110592, 110882); (110928, 110930);
   (110948, 110951); (110960, 111355); (113664, 113770); (113776, 113788);
   (113792, 113800); (113808, 113817); (119520, 119539); (119648, 119672);
   (119808, 119892); (119894, 119964); (119966, 119967); (119970, 119970);
   (119973, 119974); (119977, 119980); (119982, 119993); (119995, 119995);
   (119997, 120003); (120005, 120069); (120071, 120074); (120077, 120084);
   (120086, 120092); (120094, 120121); (120123, 120126); (120128, 120132);
   (120134, 120134); (120138, 120144); (120146, 120485); (120488, 120512);
   (120514, 120538); (120540, 120570); (120572, 120596); (120598, 120628);
   (120630, 120654); (120656, 120686); (120688, 120712); (120714, 120744);
   (120746, 120770); (120772, 120779); (120782, 120831); (122624, 122654);
   (123136, 123180); (123191, 123197); (123200, 123209); (123214, 123214);
   (123536, 123565); (123584, 123627); (123632, 123641); (124896, 124902);
   (124904, 124907); (124909, 124910); (124912, 124926); (124928, 125124);
   (125127, 125135); (125184, 125251); (125259, 125259); (125264, 125273);
   (126065, 126123); (126125, 126127); (126129, 126132); (126209, 126253);
   (126255, 126269); (126464, 126467); (126469, 126495); (126497, 126498);
   (126500, 126500); (126503, 126503); (126505, 126514); (126516, 126519);
   (126521, 126521); (126523, 126523); (126530, 126530); (126535, 126535);
   (126537, 126537); (126539, 126539); (126541, 126543); (126545, 126546);
   (126548, 126548); (126551, 126551); (126553, 126553); (126555, 126555);
   (126557, 126557); (126559, 126559); (126561, 126562); (126564, 126564);
   (126567, 126570); (126572, 126578); (126580, 126583); (126585, 126588);
   (126590, 126590); (126592, 126601); (126603, 126619); (126625, 126627);
   (126629, 126633); (126635, 126651); (127232, 127244); (130032, 130041);
   (131072, 173791); (173824, 177976); (177984, 178205); (178208, 183969);
   (183984, 191456); (194560, 195101); (196608, 201546)]%N.

(** Membership in increasing ranges. *)
Fixpoint in_ranges (cp : N) (rs : list (N * N)) : bool :=
  match rs with
  | [] => false
  | (lo, hi) :: rs' =>
      if (cp <? lo)%N then false
      else if (cp <=? hi)%N then true
      else in_ranges cp rs'
  end.

(** [\w] of the pattern, on a code point. *)
Definition is_word (cp : N) : bool := in_ranges cp word_ranges.

(** The payload of a continuation byte [10xxxxxx] at the head of a string,
    and what follows it. *)
Definition continuation (s : string) : option (N * string) :=
  match s with
  | String b s' =>
      let n := N_of_ascii b in
      if ((128 <=? n) && (n <? 192))%N then Some ((n - 128)%N, s') else None
  | "" => None
  end.

(** The character a string starts with: its code point and the number of
    bytes it takes.  A byte sequence that is not UTF-8, which no str encodes
    to, starts with no character. *)
Definition decode (s : string) : option (N * nat) :=
  match s with
  | "" => None
  | String b0 s1 =>
      let n0 := N_of_ascii b0 in
      if (n0 <? 128)%N then Some (n0, 1%nat)
      else if (n0 <? 192)%N then None
      else if (n0 <? 224)%N then
        match continuation s1 with
        | Some (c1, _) => Some (((n0 - 192) * 64 + c1)%N, 2%nat)
        | None => None
        end
      else if (n0 <? 240)%N then
        match continuation s1 with
        | Some (c1, s2) =>
            match continuation s2 with
            | Some (c2, _) =>
                Some ((((n0 - 224) * 64 + c1) * 64 + c2)%N, 3%nat)
            | None => None
            end
        | None => None
        end
      else if (n0 <? 248)%N then
        match continuation s1 with
        | Some (c1, s2) =>
            match continuation s2 with
            | Some (c2, s3) =>
                match continuation s3 with
                | Some (c3, _) =>
                    Some (((((n0 - 240) * 64 + c1) * 64 + c2) * 64 + c3)%N,
                          4%nat)
                | None => None
                end
            | None => None
            end
        | None => None
        end
      else None
  end.

(** The longest run of word characters a string starts with: what the greedy
    group [(\w+)] takes when it matches here.  [inside] is the number of
    bytes still to come of the character accepted last. *)
Fixpoint take_word_from (inside : nat) (s : string) : string :=
  match s with
  | "" => ""
  | String b s' =>
      match inside with
      | S k => String b (take_word_from k s')
      | O =>
          match decode s with
          | Some (cp, len) =>
              if is_word cp then String b (take_word_from (len - 1) s')
              else ""
          | None => ""
          end
      end
  end.

Definition take_word (s : string) : string := take_word_from 0 s.

(** The string is empty or starts with an ASCII byte: no character that
    began before it goes on into it. *)
Definition ascii_start (s : string) : bool :=
  match s with
  | "" => true
  | String b _ => (N_of_ascii b <? 128)%N
  end.

(** The characters of a str, each as a str of its own. *)
Fixpoint chars_from (skip : nat) (s : string) : list string :=
  match s with
  | "" => []
  | String b s' =>
      match skip with
      | S k => chars_from k s'
      | O =>
          match decode s with
          | Some (_, len) => substring 0 len s :: chars_from (len - 1) s'
          | None => String b "" :: chars_from 0 s'
          end
      end
  end.

(** The process environment: [environ n] is [os.environ.get(n, None)]. *)
Class Environ : Type := {
  environ : string -> option string
}.

(** The other end of the client's REQ socket: [zmq_connect] is
    [self.sock.connect], [exchange] is one [send_multipart] followed by the
    [recv_multipart] that answers it. *)
Class Transport (multipart P : Type) : Type := {
  zmq_connect : string -> outcome P;
  exchange : multipart -> P -> multipart * P
}.

Section Expansion.

Context `{Environ}.

(** The local function [expand_env] of [GymProxyClient.__init__], on the
    name of the group: what it returns and what it logs. *)
Definition expand_env (name : string) : option string * list string :=
  match environ name with
  | Some v => (Some v, [])
  | None => (None, ["No environment var $" ++ name ++ " defined"])
  end.

(** [re.sub(r'\$(\w+)', expand_env, url)]: the matches are found left to
    right and do not overlap; each is replaced by what [expand_env] returns,
    and [re.sub] takes a returned [None] for the empty string.  [skip] is
    the number of characters still inside the match found last.  The result
    is the new string and the warnings logged on the way. *)
Fixpoint sub_from (skip : nat) (s : string) : string * list string :=
  match s with
  | "" => ("", [])
  | String c rest =>
      match skip with
      | S k => sub_from k rest
      | O =>
          if Ascii.eqb c "$" then
            let name := take_word rest in
            if String.eqb name "" then
              let (o, w) := sub_from 0 rest in (String c o, w)
            else
              let (r, w1) := expand_env name in
              let (o, w) := sub_from (String.length name) rest in
              (match r with Some v => v | None => "" end ++ o,
               (w1 ++ w)%list)
          else let (o, w) := sub_from 0 rest in (String c o, w)
      end
  end.

Definition expand_url (url : string) : string * list string :=
  sub_from 0 url.

End Expansion.

(** ** client.py: GymProxyClientSocket and GymProxyClient *)

(** [tuple(v)]: the items of a list, the keys of a dict, the characters of a
    string; nothing else among the JSON-like values is iterable. *)
Definition py_tuple (v : value) : outcome value :=
  match v with
  | VList l => Ret (VList l)
  | VDict d => Ret (VList (map (fun kv => VStr (fst kv)) d))
  | VStr s => Ret (VList (map VStr (chars_from 0 s)))
  | _ => Raise (TypeError ("'" ++ type_name v ++ "' object is not iterable"))
  end.

Section Client.

(** The multipart messages and the state [P] of the other end of the REQ
    socket, with their interfaces. *)
Context {multipart P : Type}.
Context `{Environ} `{Codec multipart} `{Builtins} `{Transport multipart P}.

(** A [GymProxyClientSocket], with the requests it has sent so far. *)
Record client_socket : Type := mkSocket {
  url : string;
  sock : P;
  requests : list multipart
}.

Definition GymProxyClientSocket (u : string) : outcome client_socket :=
  match zmq_connect u with
  | Ret p => Ret (mkSocket u p [])
  | Raise e => Raise e
  end.

Definition send_recv (tx : multipart) : M client_socket multipart :=
  fun s =>
    let (rx, p) := exchange tx (sock s) in
    (Ret rx, mkSocket (url s) p (requests s ++ [tx])).

(** The request envelope of [rpc]. *)
Definition request_envelope (method : string) (params : value) : value :=
  VDict [("method", VStr method); ("params", params)].

(** [GymProxyClientSocket.rpc]. *)
Definition rpc (method : string) (params : value) : M client_socket value :=
  rx <- send_recv (dump_msg (request_envelope method params)) ;;
  rpc_ans <- lift (load_msg rx) ;;
  err <- lift (subscript rpc_ans "error") ;;
  if is_None err then lift (subscript rpc_ans "result")
  else raise (Exception (py_str err)).

(** The attributes of a [GymProxyClient] and the warnings it logged.  An
    attribute is [None] until [__init__] assigns it. *)
Record client : Type := mkClient {
  warnings : list string;
  proxy : option client_socket;
  c_action_space : option value;
  c_observation_space : option value;
  c_reward_range : option value;
  c_session_id : option value
}.

Definition new_client : client := mkClient [] None None None None None.

Definition warn (ws : list string) (c : client) : client :=
  mkClient (warnings c ++ ws) (proxy c) (c_action_space c)
           (c_observation_space c) (c_reward_range c) (c_session_id c).
Definition set_proxy (s : client_socket) (c : client) : client :=
  mkClient (warnings c) (Some s) (c_action_space c)
           (c_observation_space c) (c_reward_range c) (c_session_id c).
Definition set_action_space (v : value) (c : client) : client :=
  mkClient (warnings c) (proxy c) (Some v)
           (c_observation_space c) (c_reward_range c) (c_session_id c).
Definition set_observation_space (v : value) (c : client) : client :=
  mkClient (warnings c) (proxy c) (c_action_space c)
           (Some v) (c_reward_range c) (c_session_id c).
Definition set_reward_range (v : value) (c : client) : client :=
  mkClient (warnings c) (proxy c) (c_action_space c)
           (c_observation_space c) (Some v) (c_session_id c).
Definition set_c_session_id (v : value) (c : client) : client :=
  mkClient (warnings c) (proxy c) (c_action_space c)
           (c_observation_space c) (c_reward_range c) (Some v).

Definition client_no_attribute (attr : string) : exn :=
  AttributeError
    ("'GymProxyClient' object has no attribute '" ++ attr ++ "'").

(** [self.proxy.rpc(method, params)]. *)
Definition proxy_rpc (method : string) (params : value) : M client value :=
  fun c =>
    match proxy c with
    | None => (Raise (client_no_attribute "proxy"), c)
    | Some s =>
        let (r, s') := rpc method params s in
        (r, set_proxy s' c)
    end.

(** Reading [self.session_id]. *)
Definition get_c_session_id : M client value :=
  fun c =>
    match c_session_id c with
    | Some v => (Ret v, c)
    | None => (Raise (client_no_attribute "session_id"), c)
    end.

Definition _step (action : value) : M client (value * value * value * value) :=
  sid <- get_c_session_id ;;
  r <- proxy_rpc "step" (VDict [("action", action); ("session_id", sid)]) ;;
  got <- lift (subscript r "session_id") ;;
  mine <- get_c_session_id ;;
  if py_ne got mine then raise (Exception "Wrong session id")
  else
    obs <- lift (subscript r "obs") ;;
    reward <- lift (subscript r "reward") ;;
    done <- lift (subscript r "done") ;;
    info <- lift (subscript r "info") ;;
    ret (obs, reward, done, info).

Definition _reset : M client value :=
  sid <- get_c_session_id ;;
  r <- proxy_rpc "reset" (VDict [("session_id", sid)]) ;;
  got <- lift (subscript r "session_id") ;;
  mine <- get_c_session_id ;;
  if py_ne got mine then raise (Exception "Wrong session id")
  else lift (subscript r "obs").

Definition _render (mode close : value) : M client value :=
  sid <- get_c_session_id ;;
  r <- proxy_rpc "render" (VDict [("mode", mode); ("close", close);
                                  ("session_id", sid)]) ;;
  got <- lift (subscript r "session_id") ;;
  mine <- get_c_session_id ;;
  if py_ne got mine then raise (Exception "Wrong session id")
  else lift (subscript r "img").

(** Modelled from the spec: [gym.Env.reset], the public method of the base
    class in gym/core.py, which is not among the sources.  The RPC client's
    [reset() -> observation] "issues [reset] with [{session_id}]; same
    identity check": the public method hands over to [_reset]. *)
Definition reset : M client value := _reset.

(** [GymProxyClient.__init__(url, **kwargs)]. *)
Definition GymProxyClient (u : string) (kwargs : list (string * value))
  : M client unit :=
  let (u', ws) := expand_url u in
  modify (warn ws) ;;;
  s <- lift (GymProxyClientSocket u') ;;
  modify (set_proxy s) ;;;
  setup_result <- proxy_rpc "setup" (VDict kwargs) ;;
  acs <- lift (subscript setup_result "action_space") ;;
  modify (set_action_space acs) ;;;
  os <- lift (subscript setup_result "observation_space") ;;
  modify (set_observation_space os) ;;;
  rr <- lift (subscript setup_result "reward_range") ;;
  rr' <- lift (py_tuple rr) ;;
  modify (set_reward_range rr') ;;;
  sid <- lift (subscript setup_result "session_id") ;;
  modify (set_c_session_id sid) ;;;
  reset ;;;
  ret tt.

End Client.

(** ** A concrete instance, to run the model on

    A counter environment, a codec that puts the envelope itself in the single
    frame of a message, a deterministic cookie source, and a client peer that
    plays back replies prepared in advance. *)

Module Toy.

(** The environment counts its steps; stepping with a negative action
    raises, as does rendering in a mode other than "human". *)
Record toy_env : Type := mkToy { ticks : Z; released : bool }.

Definition toy_step (action : value)
  : M toy_env (value * value * value * value) :=
  fun e =>
    match action with
    | VInt a =>
        if a <? 0 then (Raise (mkExn "ValueError" "negative action"), e)
        else
          (Ret (VInt (ticks e + 1), VInt 1, VBool false, VDict []),
           mkToy (ticks e + 1) (released e))
    | _ => (Raise (TypeError "action must be an int"), e)
    end.

Definition toy_render (mode close : value) : M toy_env value :=
  fun e =>
    if value_eqb mode (VStr "human") then (Ret VNone, e)
    else (Raise (mkExn "ValueError" "unsupported mode"), e).

#[export] Instance toy_environment : Environment toy_env := {|
  observation_space := fun _ => VDict [("n", VInt 100)];
  action_space := fun _ => VDict [("n", VInt 2)];
  reward_range := fun _ => VList [VInt 0; VInt 1];
  env_reset := fun e => (Ret (VInt 0), mkToy 0 (released e));
  env_step := toy_step;
  env_render := toy_render;
  env_close := fun e => (Ret tt, mkToy (ticks e) true)
|}.

#[export] Instance toy_factory : Factory toy_env := {|
  make_env := fun name =>
    if value_eqb name (VStr "Toy-v0") then Ret (mkToy 0 false)
    else Raise (mkExn "Error" "no such environment")
|}.

(** The n-th cookie drawn is "abc123", "bbc123", ... *)
#[export] Instance toy_cookies : Cookies nat := {|
  mk_random_cookie := fun n =>
    (String (ascii_of_nat (97 + Nat.modulo n 26)) "bc123", S n)
|}.

(** One frame holding the envelope; any other number of frames does not
    decode. *)
#[export] Instance toy_codec : Codec (list value) := {|
  load_msg := fun rx =>
    match rx with
    | [v] => Ret v
    | _ => Raise (mkExn "ValueError" "malformed message")
    end;
  dump_msg := fun v => [v]
|}.

#[export] Instance toy_builtins : Builtins := {|
  py_repr := fun v =>
    match v with
    | VNone => "None"
    | VBool true => "True"
    | VBool false => "False"
    | _ => "<" ++ type_name v ++ ">"
    end
|}.

(** No variable is set in the process environment. *)
#[export] Instance toy_environ : Environ := {|
  environ := fun _ => None
|}.

(** The replies a peer has prepared. *)
Definition setup_reply : list value :=
  [envelope
     (VDict [("observation_space", VDict [("n", VInt 100)]);
             ("action_space", VDict [("n", VInt 2)]);
             ("reward_range", VList [VInt 0; VInt 1]);
             ("session_id", VStr "abc123")])
     VNone].
Definition reset_reply (sid : string) : list value :=
  [envelope (VDict [("obs", VInt 0); ("session_id", VStr sid)]) VNone].
Definition reset_refused : list value :=
  [envelope VNone (VStr "<class 'Exception'>: Wrong session id")].

(** The endpoints of the toy network: behind port 6911 (and behind the
    address with an empty host) a peer that answers the setup and the reset;
    behind 6912 one that refuses the reset; behind 6913 one that answers the
    reset under another session id.  Any other address is refused. *)
Definition network (u : string) : outcome (list (list value)) :=
  if (u =? "tcp://127.0.0.1:6911")%string then
    Ret [setup_reply; reset_reply "abc123"]
  else if (u =? "tcp://:6911")%string then
    Ret [setup_reply; reset_reply "abc123"]
  else if (u =? "tcp://127.0.0.1:6912")%string then
    Ret [setup_reply; reset_refused]
  else if (u =? "tcp://127.0.0.1:6913")%string then
    Ret [setup_reply; reset_reply "zzz999"]
  else Raise (mkExn "ZMQError" "Invalid argument").

(** The peer answers the n-th request with the n-th prepared reply, and with
    an empty message once it has run out. *)
#[export] Instance toy_transport : Transport (list value) (list (list value)) := {|
  zmq_connect := network;
  exchange := fun _ p =>
    match p with
    | r :: p' => (r, p')
    | [] => ([], [])
    end
|}.

Definition request (method : string) (params : list (string * value))
  : list value :=
  [VDict [("method", VStr method); ("params", VDict params)]].

(** A server with the session "abc123" on a fresh "Toy-v0" environment, as
    an accepted connection followed by a [setup] leave it. *)
Definition active : server (E := toy_env) (R := nat) (multipart := list value) :=
  mkServer (Some (mkToy 0 false)) (VStr "Toy-v0") (Some "abc123") (Some 1)
           1%nat [CallMake (VStr "Toy-v0")] [setup_reply].

(** The events that lead there. *)
Definition connect_and_setup : list (event (multipart := list value)) :=
  [Monitor EVENT_ACCEPTED;
   Recv (request "setup" [("env_name", VStr "Toy-v0")])].

(** Requests of a client of that session, and of one with another id. *)
Definition step_right : list value :=
  request "step" [("action", VInt 0); ("session_id", VStr "abc123")].
Definition step_wrong : list value :=
  request "step" [("action", VInt 0); ("session_id", VStr "wrong")].
Definition step_failing : list value :=
  request "step" [("action", VInt (-1)); ("session_id", VStr "abc123")].
Definition reset_right : list value :=
  request "reset" [("session_id", VStr "abc123")].
Definition close_right : list value :=
  request "close" [("session_id", VStr "abc123")].

(** The server itself as the peer of a client, in the run where the monitor
    has handled the connection accepted before the first request arrives: a
    request is answered with the reply the server sent for it (with an empty
    message if it sent none, where a real client would wait). *)
Definition toy_process : Type :=
  process (E := toy_env) (R := nat) (multipart := list value).

Definition loopback : Transport (list value) toy_process := {|
  zmq_connect := fun _ => Ret (deliver (boot 0%nat) (Monitor EVENT_ACCEPTED));
  exchange := fun tx p =>
    let p' := deliver p (Recv tx) in
    (if Nat.eqb (length (sent (obj p'))) (length (sent (obj p))) then []
     else last (sent (obj p')) [],
     p')
|}.

End Toy.

(** ** Vocabulary of the properties *)

Section Vocabulary.

Context {E R multipart : Type}.
Context `{Environment E} `{Factory E} `{Cookies R} `{Codec multipart}.
Context `{Builtins}.

(** A session is active when both the name and the environment are set. *)
Definition session_active (w : server (E := E) (R := R) (multipart := multipart))
  : Prop :=
  env_name w <> VNone /\ env w <> None.

(** The states a server can be in: those its two threads lead to from
    [__init__], request by request and event by event. *)
Definition reachable (w : server (E := E) (R := R) (multipart := multipart))
  : Prop :=
  exists (r : R) (evs : list event), obj (run evs (boot r)) = w.

(** The message [rx] decodes to a request for [method] with [params]. *)
Definition is_request (rx : multipart) (method : string) (params : value)
  : Prop :=
  exists rpc,
    load_msg rx = Ret rpc /\
    dict_get rpc "method" = Ret (VStr method) /\
    dict_get rpc "params" = Ret params.

(** The two kinds of reply. *)
Definition ok_reply (result : value) : multipart :=
  dump_msg (envelope result VNone).
Definition error_reply (msg : string) : multipart :=
  dump_msg (envelope VNone (VStr msg)).

(** What links the attributes in every reachable state: once a name is set,
    so are the environment, the session id and the counter. *)
Definition consistent (w : server (E := E) (R := R) (multipart := multipart))
  : Prop :=
  env_name w <> VNone ->
  env w <> None /\ session_id w <> None /\ op_count w <> None.

End Vocabulary.

(** The four requests behind the session gate. *)
Inductive gated : Type := Step | Reset | Render | Close.

Definition method_of (g : gated) : string :=
  match g with
  | Step => "step"
  | Reset => "reset"
  | Render => "render"
  | Close => "close"
  end.

(** The request carries the arguments its handler reads after the gate:
    [action] for a step, [mode] and [close] for a render. *)
Definition carries_arguments (g : gated) (params : value) : Prop :=
  match g with
  | Step => exists a, subscript params "action" = Ret a
  | Render =>
      exists m c,
        subscript params "mode" = Ret m /\ subscript params "close" = Ret c
  | Reset | Close => True
  end.

(** The call the handler makes on the environment returns. *)
Definition env_call_returns {E : Type} `{Environment E}
    (g : gated) (params : value) (e : E) : Prop :=
  match g with
  | Step =>
      forall a, subscript params "action" = Ret a ->
                exists r e', env_step a e = (Ret r, e')
  | Reset => exists obs e', env_reset e = (Ret obs, e')
  | Render =>
      forall m c,
        subscript params "mode" = Ret m -> subscript params "close" = Ret c ->
        exists img e', env_render m c e = (Ret img, e')
  | Close => exists e', env_close e = (Ret tt, e')
  end.


(** No [$] among the characters of a string. *)
Fixpoint dollar_free (s : string) : bool :=
  match s with
  | "" => true
  | String c s' => negb (Ascii.eqb c "$") && dollar_free s'
  end.

(** ** The two ends joined *)

Section Loopback.

Context {E R multipart : Type}.
Context `{Environment E} `{Factory E} `{Cookies R} `{Codec multipart}.
Context `{Builtins}.

(** The number of requests among the events. *)
Fixpoint requests_in (evs : list (event (multipart := multipart))) : nat :=
  match evs with
  | [] => 0%nat
  | Recv _ :: evs' => S (requests_in evs')
  | Monitor _ :: evs' => requests_in evs'
  end.

(** The REQ socket of a client connected to the REP socket of a server:
    [listening] is the server as the first request of the client finds it,
    and each request is answered with the reply the server sent for it.
    Whether the monitor has handled the connection accepted by then is not
    decided here, as it is not in the code: the two threads are not
    synchronised.  A server that sent no reply would leave the client
    waiting; the model then hands the request back. *)
Definition via_server (listening : process)
  : Transport multipart (process (E := E) (R := R) (multipart := multipart)) := {|
  zmq_connect := fun _ => Ret listening;
  exchange := fun tx p =>
    let p' := deliver p (Recv tx) in
    (if Nat.eqb (length (sent (obj p'))) (length (sent (obj p))) then tx
     else last (sent (obj p')) tx,
     p')
|}.

(** What the attributes of a server satisfy together: a name is only set
    with an environment, an environment is only held under a session id, a
    session id is only assigned once the counter is, and the counter is never
    negative. *)
Definition well_formed (w : server (E := E) (R := R) (multipart := multipart))
  : Prop :=
  (env_name w <> VNone -> env w <> None) /\
  (env w <> None -> session_id w <> None) /\
  (session_id w <> None -> op_count w <> None) /\
  (forall n, op_count w = Some n -> 0 <= n).


End Loopback.

(** ** More of the concrete instance *)

Module ToyExtra.

Import Toy.

(** A process environment with [HOST] set, and one with every name set. *)
Definition host_environ : Environ := {|
  environ := fun n => if (n =? "HOST")%string then Some "10.0.0.7"%string else None
|}.
Definition full_environ : Environ := {|
  environ := fun _ => Some "x"%string
|}.

(** The server after a connection accepted, before any setup. *)
Definition accepted : server (E := toy_env) (R := nat) (multipart := list value) :=
  mkServer None VNone None (Some 0) 0%nat [] [].

(** More requests on the session "abc123". *)
Definition render_right : list value :=
  request "render" [("mode", VStr "human"); ("close", VBool false);
                    ("session_id", VStr "abc123")].
Definition step_without_id : list value :=
  request "step" [("action", VInt 0)].

(** A client that holds the session id [sid], on a socket to the peer [p]. *)
Definition client_on {P : Type} (sid : string) (p : P)
  : client (multipart := list value) (P := P) :=
  mkClient [] (Some (mkSocket "tcp://127.0.0.1:6911" p [])) None None None
           (Some (VStr sid)).

(** The reply of a server to a step of the session. *)
Definition step_reply (sid : string) : list value :=
  [envelope (VDict [("obs", VInt 1); ("reward", VInt 1);
                    ("done", VBool false); ("info", VDict []);
                    ("session_id", VStr sid)])
            VNone].

End ToyExtra.

(** * Proof tools *)

Local Open Scope list_scope.

(** Unfolding a method down to the state it returns. *)
Ltac unfold_py :=
  unfold handle_msg, dispatch, handle_step, handle_reset, handle_setup,
    handle_close, handle_render, check_session_id, opened, closed, reply,
    incr_op_count, get_session_id, call_env, read_env,
    try_except, bind, lift, ret, raise, gets, modify in *.

Ltac fields :=
  cbn [sent calls env env_name session_id op_count rng send_multipart
       set_env log_call set_env_name set_op_count set_session_id set_rng
       obj main_alive monitor_alive] in *.

Ltac conjuncts :=
  repeat match goal with |- _ /\ _ => split end.

Ltac crunch :=
  repeat (cbn in *; subst;
          match goal with
          | H : (_, _) = (_, _) |- _ => inversion H; clear H
          | H : Ret _ = Ret _ |- _ => inversion H; clear H
          | H : Some _ = Some _ |- _ => inversion H; clear H
          | H : match ?x with _ => _ end = _ |- _ => destruct x eqn:?
          | H : (let (_, _) := ?x in _) = _ |- _ => destruct x eqn:?
          | H : (if ?x then _ else _) = _ |- _ => destruct x eqn:?
          | H : context [match ?x with _ => _ end] |- _ => destruct x eqn:?
          end);
  cbn in *; subst; cbn in *.

Ltac run_py :=
  unfold_py;
  repeat (cbn;
          match goal with
          | H : ?l = _ |- context [?l] => rewrite H
          end);
  cbn.

(** * Properties of the server *)

Section ServerProperties.

Context {E R multipart : Type}.
Context `{Environment E} `{Factory E} `{Cookies R} `{Codec multipart}.
Context `{Builtins}.

Local Abbreviation server := (server (E := E) (R := R) (multipart := multipart)).
Local Abbreviation process := (process (E := E) (R := R) (multipart := multipart)).

Lemma is_None_false (v : value) : v <> VNone -> is_None v = false.
Proof. destruct v; cbn; congruence. Qed.

Lemma is_None_true (v : value) : is_None v = true -> v = VNone.
Proof. destruct v; cbn; congruence. Qed.

(** *** The invariant of reachable states *)

Lemma consistent_init (r : R) : consistent (init r : server).
Proof. intros Hn. cbn in Hn. congruence. Qed.

Lemma consistent_opened (w w' : server) (o : outcome unit) :
  opened w = (o, w') -> consistent w'.
Proof. unfold_py. intros Heq Hn. crunch. congruence. Qed.

Lemma consistent_closed (w w' : server) (o : outcome unit) :
  consistent w -> closed w = (o, w') -> consistent w'.
Proof. unfold_py. intros Hc Heq Hn. crunch; congruence. Qed.

Lemma consistent_handle_msg (w w' : server) (rx : multipart) (o : outcome unit) :
  consistent w -> handle_msg rx w = (o, w') -> consistent w'.
Proof.
  unfold_py. unfold consistent. intros Hc Heq Hn.
  crunch; try congruence; try solve [intuition congruence].
Qed.

Lemma consistent_deliver (p : process) (ev : event) :
  consistent (obj p) -> consistent (obj (deliver p ev)).
Proof.
  intros Hc. destruct ev as [rx | ev]; cbn.
  - unfold run_main_iter. destruct (main_alive p); [|exact Hc].
    destruct (handle_msg rx (obj p)) as [o w'] eqn:Heq.
    apply (consistent_handle_msg _ _ _ _ Hc) in Heq. destruct o; exact Heq.
  - unfold run_monitor_iter. destruct (monitor_alive p); [|exact Hc].
    destruct ev; [| |exact Hc].
    + destruct (opened (obj p)) as [o w'] eqn:Heq.
      apply consistent_opened in Heq. destruct o; exact Heq.
    + destruct (closed (obj p)) as [o w'] eqn:Heq.
      apply (consistent_closed _ _ _ Hc) in Heq. destruct o; exact Heq.
Qed.

Lemma consistent_run (evs : list event) (p : process) :
  consistent (obj p) -> consistent (obj (run evs p)).
Proof.
  revert p. induction evs as [|ev evs IH]; intros p Hc; [exact Hc|].
  change (run (ev :: evs) p) with (run evs (deliver p ev)).
  apply IH, consistent_deliver, Hc.
Qed.

Lemma reachable_consistent (w : server) : reachable w -> consistent w.
Proof.
  intros (r & evs & <-). apply consistent_run, consistent_init.
Qed.

(** In a reachable state with a name set, the other attributes are set. *)
Lemma reachable_active (w : server) :
  reachable w -> env_name w <> VNone ->
  exists e sid n,
    env w = Some e /\ session_id w = Some sid /\ op_count w = Some n.
Proof.
  intros Hr Hn. destruct (reachable_consistent w Hr Hn) as (He & Hs & Ho).
  destruct (env w) as [e|]; [|congruence].
  destruct (session_id w) as [sid|]; [|congruence].
  destruct (op_count w) as [n|]; [|congruence].
  now exists e, sid, n.
Qed.

(** *** Comparing with a string *)

Lemma value_eqb_str (v : value) (s : string) :
  value_eqb v (VStr s) = true <-> v = VStr s.
Proof.
  destruct v; cbn; try solve [split; [discriminate | congruence]].
  rewrite String.eqb_eq. split; congruence.
Qed.

Lemma py_ne_str_true (v : value) (s : string) :
  v <> VStr s -> py_ne v (VStr s) = true.
Proof.
  intros Hne. unfold py_ne. destruct (value_eqb v (VStr s)) eqn:Heq; [|reflexivity].
  apply value_eqb_str in Heq. contradiction.
Qed.

Lemma py_ne_str_same (s : string) : py_ne (VStr s) (VStr s) = false.
Proof. unfold py_ne. cbn. now rewrite String.eqb_refl. Qed.

(** *** What [handle_msg] does, request by request *)

(** A request whose session id is not the server's: the handler raises at
    the gate, and the only trace is the counter and the error reply. *)
Lemma handle_msg_wrong_id (w : server) (g : gated) (rx : multipart)
    (params given : value) (sid : string) (n : Z) :
  op_count w = Some n -> session_id w = Some sid ->
  is_request rx (method_of g) params ->
  subscript params "session_id" = Ret given ->
  given <> VStr sid ->
  handle_msg rx w =
    (Ret tt,
     send_multipart (error_reply "<class 'Exception'>: Wrong session id")
                    (set_op_count (Some (n + 1)) w)).
Proof.
  intros Hn Hsid (rpc & Hload & Hm & Hp) Hgiven Hne.
  apply py_ne_str_true in Hne.
  destruct g; cbn in Hm; run_py; reflexivity.
Qed.

(** The same request when [session_id] was never assigned. *)
Lemma handle_msg_no_session_id (w : server) (g : gated) (rx : multipart)
    (params given : value) (n : Z) :
  op_count w = Some n -> session_id w = None ->
  is_request rx (method_of g) params ->
  subscript params "session_id" = Ret given ->
  handle_msg rx w =
    (Ret tt,
     send_multipart
       (error_reply ("<class 'AttributeError'>: 'GymProxyZmqServer' object has no attribute 'session_id'"))
       (set_op_count (Some (n + 1)) w)).
Proof.
  intros Hn Hsid (rpc & Hload & Hm & Hp) Hgiven.
  destruct g; cbn in Hm; run_py; reflexivity.
Qed.

Section PastTheGate.

Variables (w : server) (rx : multipart) (params : value)
          (sid : string) (n : Z).
Hypothesis Hcount : op_count w = Some n.
Hypothesis Hsid : session_id w = Some sid.
Hypothesis Hgiven : subscript params "session_id" = Ret (VStr sid).

Let counted : server := set_op_count (Some (n + 1)) w.

Lemma handle_msg_step (a : value) (e e' : E)
    (o : outcome (value * value * value * value)) :
  is_request rx "step" params ->
  subscript params "action" = Ret a ->
  env w = Some e -> env_step a e = (o, e') ->
  handle_msg rx w =
    (Ret tt,
     send_multipart
       (match o with
        | Ret (obs, reward, done, info) =>
            ok_reply (VDict [("obs", obs); ("reward", reward);
                             ("done", done); ("info", info);
                             ("session_id", VStr sid)])
        | Raise ex => error_reply (error_text ex)
        end)
       (log_call (CallStep a) (set_env (Some e') counted))).
Proof.
  intros (rpc & Hload & Hm & Hp) Ha He Hstep.
  pose proof (py_ne_str_same sid) as Hsame.
  run_py. destruct o as [[[[obs reward] done] info]|ex]; run_py; reflexivity.
Qed.

Lemma handle_msg_reset (e e' : E) (o : outcome value) :
  is_request rx "reset" params ->
  env w = Some e -> env_reset e = (o, e') ->
  handle_msg rx w =
    (Ret tt,
     send_multipart
       (match o with
        | Ret obs => ok_reply (VDict [("obs", obs); ("session_id", VStr sid)])
        | Raise ex => error_reply (error_text ex)
        end)
       (log_call CallReset (set_env (Some e') counted))).
Proof.
  intros (rpc & Hload & Hm & Hp) He Hreset.
  pose proof (py_ne_str_same sid) as Hsame.
  run_py. destruct o as [obs|ex]; run_py; reflexivity.
Qed.

Lemma handle_msg_render (mode close : value) (e e' : E) (o : outcome value) :
  is_request rx "render" params ->
  subscript params "mode" = Ret mode ->
  subscript params "close" = Ret close ->
  env w = Some e -> env_render mode close e = (o, e') ->
  handle_msg rx w =
    (Ret tt,
     send_multipart
       (match o with
        | Ret img => ok_reply (VDict [("img", img); ("session_id", VStr sid)])
        | Raise ex => error_reply (error_text ex)
        end)
       (log_call (CallRender mode close) (set_env (Some e') counted))).
Proof.
  intros (rpc & Hload & Hm & Hp) Hmode Hclose He Hrender.
  pose proof (py_ne_str_same sid) as Hsame.
  run_py. destruct o as [img|ex]; run_py; reflexivity.
Qed.

Lemma handle_msg_close (e e' : E) (o : outcome unit) :
  is_request rx "close" params ->
  env w = Some e -> env_close e = (o, e') ->
  handle_msg rx w =
    (Ret tt,
     match o with
     | Ret _ =>
         send_multipart
           (ok_reply (VDict [("session_id", VStr sid)]))
           (set_env None
              (log_call CallClose
                 (set_env (Some e') (set_env_name VNone counted))))
     | Raise ex =>
         send_multipart
           (error_reply (error_text ex))
           (log_call CallClose
              (set_env (Some e') (set_env_name VNone counted)))
     end).
Proof.
  intros (rpc & Hload & Hm & Hp) He Hclose.
  pose proof (py_ne_str_same sid) as Hsame.
  run_py. destruct o as [[]|ex]; run_py; reflexivity.
Qed.

(** With no environment left, [step], [reset] and [render] fail on the
    method lookup, after the gate. *)
Lemma handle_msg_no_env (g : gated) :
  g <> Close ->
  is_request rx (method_of g) params ->
  carries_arguments g params ->
  env w = None ->
  handle_msg rx w =
    (Ret tt,
     send_multipart
       (error_reply
          ("<class 'AttributeError'>: 'NoneType' object has no attribute '"
           ++ method_of g ++ "'")%string)
       counted).
Proof.
  intros Hg (rpc & Hload & Hm & Hp) Hargs He.
  pose proof (py_ne_str_same sid) as Hsame.
  destruct g; cbn in Hm, Hargs; try congruence.
  - destruct Hargs as (a & Ha). run_py. reflexivity.
  - run_py. reflexivity.
  - destruct Hargs as (m & c & Hmode & Hc). run_py. reflexivity.
Qed.

(** With no environment left, [close] has nothing to release and
    returns. *)
Lemma handle_msg_close_no_env :
  is_request rx "close" params ->
  env w = None ->
  handle_msg rx w =
    (Ret tt,
     send_multipart
       (ok_reply (VDict [("session_id", VStr sid)]))
       (set_env None (set_env_name VNone counted))).
Proof.
  intros (rpc & Hload & Hm & Hp) He.
  pose proof (py_ne_str_same sid) as Hsame.
  run_py. reflexivity.
Qed.

End PastTheGate.

(** A request that passes the gate, carries its arguments and whose
    environment call returns is answered with a result that carries the
    session id. *)
Lemma matching_request_served (w : server) (g : gated) (rx : multipart)
    (params : value) (sid : string) (n : Z) (e : E) :
  op_count w = Some n -> session_id w = Some sid -> env w = Some e ->
  is_request rx (method_of g) params ->
  subscript params "session_id" = Ret (VStr sid) ->
  carries_arguments g params ->
  env_call_returns g params e ->
  exists w' result,
    handle_msg rx w = (Ret tt, w') /\
    sent w' = sent w ++ [ok_reply result] /\
    subscript result "session_id" = Ret (VStr sid).
Proof.
  intros Hn Hsid He Hreq Hgiven Hargs Hcall.
  destruct g; cbn in Hreq, Hargs, Hcall.
  - destruct Hargs as (a & Ha).
    destruct (Hcall a Ha) as ([[[obs reward] done] info] & e' & Hstep).
    do 2 eexists. split.
    + eapply handle_msg_step; eassumption.
    + cbn. split; reflexivity.
  - destruct Hcall as (obs & e' & Hreset).
    do 2 eexists. split.
    + eapply handle_msg_reset; eassumption.
    + cbn. split; reflexivity.
  - destruct Hargs as (m & c & Hm & Hc).
    destruct (Hcall m c Hm Hc) as (img & e' & Hrender).
    do 2 eexists. split.
    + eapply handle_msg_render; eassumption.
    + cbn. split; reflexivity.
  - destruct Hcall as (e' & Hclose).
    do 2 eexists. split.
    + eapply handle_msg_close; eassumption.
    + cbn. split; reflexivity.
Qed.

(** *** Session gating *)

(** C1.  In a reachable state with an active session, a step, reset, render
    or close request whose [session_id] is not the session's is answered
    with an error reply and changes neither the environment, nor its name,
    nor the session id, and calls nothing on the environment; one whose
    [session_id] is the session's is answered with a result that carries the
    session id, provided the request carries the arguments of its method and
    the environment call returns. *)
Theorem session_gating (w : server) (g : gated) (rx : multipart)
    (params given : value) (sid : string) :
  reachable w -> session_active w -> session_id w = Some sid ->
  is_request rx (method_of g) params ->
  subscript params "session_id" = Ret given ->
  (given <> VStr sid ->
   exists w',
     handle_msg rx w = (Ret tt, w') /\
     sent w' = sent w ++ [error_reply "<class 'Exception'>: Wrong session id"] /\
     env w' = env w /\ env_name w' = env_name w /\
     session_id w' = session_id w /\ calls w' = calls w)
  /\
  (given = VStr sid ->
   carries_arguments g params ->
   (forall e, env w = Some e -> env_call_returns g params e) ->
   exists w' result,
     handle_msg rx w = (Ret tt, w') /\
     sent w' = sent w ++ [ok_reply result] /\
     subscript result "session_id" = Ret (VStr sid)).
Proof.
  intros Hr [Hname _] Hsid Hreq Hgiven.
  destruct (reachable_active w Hr Hname) as (e & sid' & n & He & _ & Hn).
  split.
  - intros Hne. eexists. split.
    + eapply handle_msg_wrong_id; eassumption.
    + cbn. repeat split.
  - intros -> Hargs Hcall.
    eapply matching_request_served; eauto.
Qed.

(** C2.  In a reachable state with an active session, a [setup] request is
    answered with an error reply, and the environment, its name and the
    session id stay those of the first setup; no environment is made. *)
Theorem setup_while_active (w : server) (rx : multipart) (params : value) :
  reachable w -> session_active w ->
  is_request rx "setup" params ->
  exists w',
    handle_msg rx w = (Ret tt, w') /\
    sent w' = sent w ++ [error_reply "<class 'Exception'>: Already set up"] /\
    env w' = env w /\ env_name w' = env_name w /\
    session_id w' = session_id w /\ calls w' = calls w.
Proof.
  intros Hr [Hname _] (rpc & Hload & Hm & Hp).
  destruct (reachable_active w Hr Hname) as (e & sid & n & He & Hsid & Hn).
  apply is_None_false in Hname.
  eexists. split.
  - run_py. reflexivity.
  - cbn. repeat split.
Qed.

(** *** The request loop and a message that does not decode *)

Lemma sent_opened (w w' : server) (o : outcome unit) :
  opened w = (o, w') -> sent w' = sent w.
Proof. unfold_py. intros Heq. crunch. reflexivity. Qed.

Lemma sent_closed (w w' : server) (o : outcome unit) :
  closed w = (o, w') -> sent w' = sent w.
Proof. unfold_py. intros Heq. crunch; reflexivity. Qed.

Lemma deliver_main_ended (p : process) (ev : event) :
  main_alive p = false ->
  main_alive (deliver p ev) = false /\
  sent (obj (deliver p ev)) = sent (obj p).
Proof.
  intros Hdead. destruct ev as [rx | ev]; cbn.
  - unfold run_main_iter. rewrite Hdead. now split.
  - unfold run_monitor_iter. destruct (monitor_alive p); [|now split].
    destruct ev; [| |now split].
    + destruct (opened (obj p)) as [o w'] eqn:Heq.
      apply sent_opened in Heq. destruct o; now split.
    + destruct (closed (obj p)) as [o w'] eqn:Heq.
      apply sent_closed in Heq. destruct o; now split.
Qed.

Lemma run_main_ended (evs : list event) (p : process) :
  main_alive p = false ->
  main_alive (run evs p) = false /\
  sent (obj (run evs p)) = sent (obj p).
Proof.
  revert p. induction evs as [|ev evs IH]; intros p Hdead; [now split|].
  destruct (deliver_main_ended p ev Hdead) as [Hd Hs].
  destruct (IH _ Hd) as [Hd' Hs'].
  change (run (ev :: evs) p) with (run evs (deliver p ev)).
  split; congruence.
Qed.

(** C3.  What the code does with a message that does not decode:
    [load_msg] is called before the [try], so its exception leaves
    [handle_msg] and ends [run_main]; no reply is sent for that message, and
    none for any request that comes after it. *)
Theorem decode_failure_ends_run_main (p : process) (rx : multipart)
    (e : exn) (evs : list event) :
  main_alive p = true ->
  load_msg rx = Raise e ->
  handle_msg rx (obj p) = (Raise e, obj p) /\
  main_alive (run (Recv rx :: evs) p) = false /\
  sent (obj (run (Recv rx :: evs) p)) = sent (obj p).
Proof.
  intros Halive Hload.
  assert (Hmsg : handle_msg rx (obj p) = (Raise e, obj p)) by (run_py; reflexivity).
  split; [exact Hmsg|].
  change (run (Recv rx :: evs) p) with (run evs (run_main_iter rx p)).
  unfold run_main_iter. rewrite Halive, Hmsg.
  apply (run_main_ended evs (mkProcess (obj p) false (monitor_alive p))).
  reflexivity.
Qed.

(** *** The text of an error reply *)

Lemma length_append (s t : string) :
  String.length (s ++ t)%string = (String.length s + String.length t)%nat.
Proof. induction s as [|c s IH]; cbn; [reflexivity | now rewrite IH]. Qed.

Lemma error_text_not_verbatim (e : exn) : error_text e <> ex_str e.
Proof.
  intros Heq. apply (f_equal String.length) in Heq.
  unfold error_text, str_type in Heq.
  repeat (rewrite length_append in Heq; cbn in Heq). lia.
Qed.

(** C4, as the code has it.  Whatever exception the dispatch lets through,
    the error field of the reply is the class of the exception as Python
    prints it, a colon and a space, and then the message: never the bare
    message.  For a [step] request with another session id the field reads
    [<class 'Exception'>: Wrong session id]. *)
Theorem error_reply_names_the_class (w : server) (rx : multipart)
    (rpc m params : value) (n : Z) (e : exn) (w1 : server) :
  load_msg rx = Ret rpc ->
  dict_get rpc "method" = Ret m ->
  dict_get rpc "params" = Ret params ->
  op_count w = Some n ->
  dispatch m params (set_op_count (Some (n + 1)) w) = (Raise e, w1) ->
  handle_msg rx w =
    (Ret tt,
     send_multipart
       (dump_msg (envelope VNone
                    (VStr (str_type e ++ ": " ++ ex_str e)%string)))
       w1) /\
  (str_type e ++ ": " ++ ex_str e)%string <> ex_str e /\
  (m = VStr "step" ->
   forall (given : value) (sid : string),
     subscript params "session_id" = Ret given ->
     session_id w = Some sid ->
     given <> VStr sid ->
     ex_str e = "Wrong session id" /\
     (str_type e ++ ": " ++ ex_str e)%string
     = "<class 'Exception'>: Wrong session id").
Proof.
  intros Hload Hm Hp Hn Hd. split; [|split].
  - unfold handle_msg, try_except, bind, lift, incr_op_count.
    rewrite Hload, Hm, Hp, Hn. cbn. rewrite Hd. reflexivity.
  - apply error_text_not_verbatim.
  - intros -> given sid Hgiven Hsid Hne. apply py_ne_str_true in Hne.
    revert Hd. run_py. intros Hd. inversion Hd. split; reflexivity.
Qed.

(** *** Close *)

(** C5, as the code has it.  A close request that passes the gate and whose
    [env.close()] returns releases the environment and leaves no session
    active, but keeps [session_id]: a later step, reset or render with that
    id passes the gate and fails on the absent environment, a later close
    with that id is answered with a result, and neither calls anything. *)
Theorem close_releases_and_keeps_id (w : server) (rx : multipart)
    (params : value) (sid : string) (e e' : E) :
  reachable w -> session_active w ->
  env w = Some e -> session_id w = Some sid ->
  is_request rx "close" params ->
  subscript params "session_id" = Ret (VStr sid) ->
  env_close e = (Ret tt, e') ->
  exists w1,
    handle_msg rx w = (Ret tt, w1) /\
    sent w1 = sent w ++ [ok_reply (VDict [("session_id", VStr sid)])] /\
    calls w1 = calls w ++ [CallClose] /\
    env w1 = None /\ env_name w1 = VNone /\ ~ session_active w1 /\
    session_id w1 = Some sid /\
    forall (g : gated) (rx2 : multipart) (params2 : value),
      is_request rx2 (method_of g) params2 ->
      subscript params2 "session_id" = Ret (VStr sid) ->
      carries_arguments g params2 ->
      exists w2,
        handle_msg rx2 w1 = (Ret tt, w2) /\
        calls w2 = calls w1 /\ env w2 = None /\
        sent w2 =
          sent w1 ++
          [match g with
           | Close => ok_reply (VDict [("session_id", VStr sid)])
           | _ =>
               error_reply
                 ("<class 'AttributeError'>: 'NoneType' object has no attribute '"
                  ++ method_of g ++ "'")%string
           end].
Proof.
  intros Hr [Hname _] He Hsid Hreq Hgiven Hclose.
  destruct (reachable_active w Hr Hname) as (e0 & sid0 & n & _ & _ & Hn).
  eexists. split; [eapply handle_msg_close; eassumption|].
  conjuncts; fields; try reflexivity; try assumption.
  - intros [Hcontra _]. now apply Hcontra.
  - intros g rx2 params2 Hreq2 Hgiven2 Hargs2.
    destruct g.
    1-3: eexists; split;
      [eapply (handle_msg_no_env _ _ _ sid (n + 1)); try eassumption;
       try reflexivity; try discriminate
      | conjuncts; fields; reflexivity].
    eexists; split;
      [eapply (handle_msg_close_no_env _ _ _ sid (n + 1)); try eassumption;
       reflexivity
      | conjuncts; fields; reflexivity].
Qed.

(** *** The monitor: a connection accepted *)

(** A [setup] request when no name is set. *)
Lemma handle_msg_setup (w : server) (rx : multipart) (params name : value)
    (n : Z) (e : E) :
  env_name w = VNone -> op_count w = Some n ->
  is_request rx "setup" params ->
  subscript params "env_name" = Ret name ->
  make_env name = Ret e ->
  handle_msg rx w =
    (Ret tt,
     let cookie := fst (mk_random_cookie (rng w)) in
     send_multipart
       (ok_reply (VDict [("observation_space", observation_space e);
                         ("action_space", action_space e);
                         ("reward_range", reward_range e);
                         ("session_id", VStr cookie)]))
       (set_session_id (Some cookie)
          (set_rng (snd (mk_random_cookie (rng w)))
             (set_env_name name
                (set_env (Some e)
                   (log_call (CallMake name)
                      (set_op_count (Some (n + 1)) w))))))).
Proof.
  intros Hname Hn (rpc & Hload & Hm & Hp) Hsub Hmake.
  run_py. destruct (mk_random_cookie (rng w)) as [cookie r'].
  reflexivity.
Qed.

Lemma deliver_accepted (p : process) :
  monitor_alive p = true ->
  deliver p (Monitor EVENT_ACCEPTED)
  = mkProcess (set_op_count (Some 0) (set_env_name VNone (obj p)))
              (main_alive p) true.
Proof. intros Ha. cbn. unfold run_monitor_iter. now rewrite Ha. Qed.

(** C6, as the code has it.  When the monitor handles a connection accepted,
    the name is cleared, so that no session is active and a setup is taken
    again, and the counter is back at 0, whatever came before; the
    environment and [session_id] are left as they were.  So a step, reset,
    render or close request is answered with an error unless it carries the
    session id that was left, and one that carries it is still served by the
    environment that was left, when there is one. *)
Theorem opened_clears_name_and_counter (p : process) :
  monitor_alive p = true ->
  let p1 := deliver p (Monitor EVENT_ACCEPTED) in
  env_name (obj p1) = VNone /\ op_count (obj p1) = Some 0 /\
  ~ session_active (obj p1) /\
  env (obj p1) = env (obj p) /\ session_id (obj p1) = session_id (obj p) /\
  calls (obj p1) = calls (obj p) /\ sent (obj p1) = sent (obj p) /\
  (forall (g : gated) (rx : multipart) (params given : value),
      is_request rx (method_of g) params ->
      subscript params "session_id" = Ret given ->
      (forall sid, session_id (obj p) = Some sid -> given <> VStr sid) ->
      exists msg w2,
        handle_msg rx (obj p1) = (Ret tt, w2) /\
        sent w2 = sent (obj p) ++ [error_reply msg] /\
        env w2 = env (obj p) /\ env_name w2 = VNone /\
        session_id w2 = session_id (obj p) /\ calls w2 = calls (obj p)) /\
  (forall (g : gated) (rx : multipart) (params : value) (sid : string) (e : E),
      session_id (obj p) = Some sid -> env (obj p) = Some e ->
      is_request rx (method_of g) params ->
      subscript params "session_id" = Ret (VStr sid) ->
      carries_arguments g params ->
      env_call_returns g params e ->
      exists w2 result,
        handle_msg rx (obj p1) = (Ret tt, w2) /\
        sent w2 = sent (obj p) ++ [ok_reply result] /\
        subscript result "session_id" = Ret (VStr sid)) /\
  (forall (rx : multipart) (params name : value) (e : E),
      is_request rx "setup" params ->
      subscript params "env_name" = Ret name ->
      make_env name = Ret e ->
      exists w2 result,
        handle_msg rx (obj p1) = (Ret tt, w2) /\
        sent w2 = sent (obj p) ++ [ok_reply result] /\
        env w2 = Some e /\ env_name w2 = name).
Proof.
  intros Ha p1. subst p1. rewrite (deliver_accepted p Ha).
  conjuncts; fields; try reflexivity.
  - intros [Hcontra _]. now apply Hcontra.
  - intros g rx params given Hreq Hgiven Hother.
    destruct (session_id (obj p)) as [sid|] eqn:Hsid.
    + do 2 eexists. split.
      * eapply (handle_msg_wrong_id _ g rx params given sid 0);
          try eassumption; try reflexivity. now apply Hother.
      * conjuncts; fields; try reflexivity. now rewrite Hsid.
    + do 2 eexists. split.
      * eapply (handle_msg_no_session_id _ g rx params given 0);
          try eassumption; reflexivity.
      * conjuncts; fields; try reflexivity. now rewrite Hsid.
  - intros g rx params sid e Hsid He Hreq Hgiven Hargs Hcall.
    destruct (matching_request_served
                (set_op_count (Some 0) (set_env_name VNone (obj p)))
                g rx params sid 0 e)
      as (w2 & result & Hmsg & Hsent & Hres);
      try eassumption; try reflexivity.
    exists w2, result. conjuncts; assumption.
  - intros rx params name e Hreq Hsub Hmake.
    do 2 eexists. split.
    + eapply (handle_msg_setup _ rx params name 0 e);
        try eassumption; reflexivity.
    + conjuncts; fields; reflexivity.
Qed.

(** *** The monitor: a disconnect *)

(** A disconnect with an environment held calls its [close], once. *)
Lemma deliver_disconnected (p : process) (e e' : E) (o : outcome unit) :
  monitor_alive p = true ->
  env (obj p) = Some e -> env_close e = (o, e') ->
  deliver p (Monitor EVENT_DISCONNECTED)
  = match o with
    | Ret _ =>
        mkProcess
          (set_env None
             (log_call CallClose
                (set_env (Some e') (set_env_name VNone (obj p)))))
          (main_alive p) true
    | Raise _ =>
        mkProcess
          (log_call CallClose
             (set_env (Some e') (set_env_name VNone (obj p))))
          (main_alive p) false
    end.
Proof.
  intros Ha He Hclose. cbn. unfold run_monitor_iter. rewrite Ha.
  run_py. destruct o; reflexivity.
Qed.

(** A disconnect with the monitor thread ended or with no environment held
    calls nothing, and leaves things so. *)
Lemma deliver_disconnected_idle (p : process) :
  monitor_alive p = false \/ env (obj p) = None ->
  let q := deliver p (Monitor EVENT_DISCONNECTED) in
  (monitor_alive q = false \/ env (obj q) = None) /\
  calls (obj q) = calls (obj p).
Proof.
  intros Hidle. cbn. unfold run_monitor_iter.
  destruct (monitor_alive p) eqn:Ha.
  - destruct Hidle as [Hcontra | He]; [discriminate|].
    run_py. split; [right|]; reflexivity.
  - split; [left; exact Ha | reflexivity].
Qed.

Lemma run_disconnected_idle (k : nat) (p : process) :
  monitor_alive p = false \/ env (obj p) = None ->
  calls (obj (run (repeat (Monitor EVENT_DISCONNECTED) k) p)) = calls (obj p).
Proof.
  revert p. induction k as [|k IH]; intros p Hidle; [reflexivity|].
  change (run (repeat (Monitor EVENT_DISCONNECTED) (S k)) p)
    with (run (repeat (Monitor EVENT_DISCONNECTED) k)
              (deliver p (Monitor EVENT_DISCONNECTED))).
  destruct (deliver_disconnected_idle p Hidle) as [Hidle' Hcalls].
  rewrite (IH _ Hidle'). exact Hcalls.
Qed.

(** C7.  When the monitor handles a disconnect while a session is active,
    it calls the [close] of the environment exactly once and no session is
    active afterwards; the environment is dropped when that [close]
    returns.  Any number of further disconnects call nothing.  When a close
    request has released the environment first, the disconnect that follows
    calls nothing either: one [close] in all. *)
Theorem disconnect_closes_once (p : process) :
  monitor_alive p = true ->
  session_active (obj p) ->
  let p1 := deliver p (Monitor EVENT_DISCONNECTED) in
  calls (obj p1) = calls (obj p) ++ [CallClose] /\
  env_name (obj p1) = VNone /\ ~ session_active (obj p1) /\
  (forall e e', env (obj p) = Some e -> env_close e = (Ret tt, e') ->
                env (obj p1) = None) /\
  (forall k : nat,
      calls (obj (run (repeat (Monitor EVENT_DISCONNECTED) k) p1))
      = calls (obj p1)) /\
  (forall (rx : multipart) (params : value) (sid : string) (n : Z)
          (e e' : E),
      main_alive p = true -> op_count (obj p) = Some n ->
      env (obj p) = Some e -> session_id (obj p) = Some sid ->
      is_request rx "close" params ->
      subscript params "session_id" = Ret (VStr sid) ->
      env_close e = (Ret tt, e') ->
      let q := deliver p (Recv rx) in
      calls (obj q) = calls (obj p) ++ [CallClose] /\
      forall k : nat,
        calls (obj (run (repeat (Monitor EVENT_DISCONNECTED) k) q))
        = calls (obj q)).
Proof.
  intros Ha [Hname Henv] p1.
  destruct (env (obj p)) as [e|] eqn:He; [clear Henv | congruence].
  destruct (env_close e) as [o e'] eqn:Hclose.
  assert (Hp1 := deliver_disconnected p e e' o Ha He Hclose).
  fold p1 in Hp1.
  conjuncts.
  - rewrite Hp1. destruct o; reflexivity.
  - rewrite Hp1. destruct o; reflexivity.
  - rewrite Hp1. intros [Hcontra _]. apply Hcontra. destruct o; reflexivity.
  - intros e1 e1' He1 Hclose1. inversion He1; subst e1.
    rewrite Hclose in Hclose1. inversion Hclose1; subst.
    rewrite Hp1. reflexivity.
  - intros k. apply run_disconnected_idle. rewrite Hp1.
    destruct o; [right | left]; reflexivity.
  - intros rx params sid n e1 e1' Hmain Hn He1 Hsid Hreq Hgiven Hclose1 q.
    inversion He1; subst e1. clear He1.
    assert (Hq : q = mkProcess
                       (send_multipart
                          (ok_reply (VDict [("session_id", VStr sid)]))
                          (set_env None
                             (log_call CallClose
                                (set_env (Some e1')
                                   (set_env_name VNone
                                      (set_op_count (Some (n + 1)) (obj p)))))))
                       true (monitor_alive p)).
    { subst q. cbn [deliver]. unfold run_main_iter. rewrite Hmain.
      rewrite (handle_msg_close (obj p) rx params sid n Hn Hsid Hgiven
                                e e1' (Ret tt) Hreq He Hclose1).
      reflexivity. }
    rewrite Hq. split; [reflexivity|].
    intros k. apply run_disconnected_idle. right. reflexivity.
Qed.

(** *** A failing environment call *)

(** C8.  When [env.step] raises during a step request, [run_main] goes on:
    the request is answered with an error reply that names the exception,
    and the name and the session id are as before.  A reset request with the
    same session id that follows reaches [env.reset] and is answered with
    its observation when it returns. *)
Theorem step_failure_is_isolated (p : process) (rx : multipart)
    (params a : value) (sid : string) (e e' : E) (ex : exn) :
  main_alive p = true ->
  reachable (obj p) -> session_active (obj p) ->
  env (obj p) = Some e -> session_id (obj p) = Some sid ->
  is_request rx "step" params ->
  subscript params "session_id" = Ret (VStr sid) ->
  subscript params "action" = Ret a ->
  env_step a e = (Raise ex, e') ->
  let p1 := deliver p (Recv rx) in
  main_alive p1 = true /\
  sent (obj p1) = sent (obj p) ++ [error_reply (error_text ex)] /\
  env_name (obj p1) = env_name (obj p) /\
  session_id (obj p1) = Some sid /\ env (obj p1) = Some e' /\
  forall (rx2 : multipart) (params2 obs : value) (e'' : E),
    is_request rx2 "reset" params2 ->
    subscript params2 "session_id" = Ret (VStr sid) ->
    env_reset e' = (Ret obs, e'') ->
    let p2 := deliver p1 (Recv rx2) in
    main_alive p2 = true /\
    sent (obj p2) =
      sent (obj p1) ++
      [ok_reply (VDict [("obs", obs); ("session_id", VStr sid)])] /\
    env (obj p2) = Some e''.
Proof.
  intros Hmain Hr [Hname _] He Hsid Hreq Hgiven Ha Hstep p1.
  destruct (reachable_active _ Hr Hname) as (e0 & sid0 & n & _ & _ & Hn).
  assert (Hp1 : p1 = mkProcess
                       (send_multipart (error_reply (error_text ex))
                          (log_call (CallStep a)
                             (set_env (Some e')
                                (set_op_count (Some (n + 1)) (obj p)))))
                       true (monitor_alive p)).
  { subst p1. cbn [deliver]. unfold run_main_iter. rewrite Hmain.
    rewrite (handle_msg_step (obj p) rx params sid n Hn Hsid Hgiven
                             a e e' (Raise ex) Hreq Ha He Hstep).
    reflexivity. }
  rewrite Hp1. conjuncts; fields; try reflexivity; try assumption.
  intros rx2 params2 obs e'' Hreq2 Hgiven2 Hreset.
  cbn [deliver]. unfold run_main_iter. fields.
  erewrite (handle_msg_reset _ rx2 params2 sid (n + 1));
    [ | reflexivity | fields; eassumption | eassumption | eassumption
      | reflexivity | eassumption ].
  conjuncts; fields; reflexivity.
Qed.

End ServerProperties.

(** * Properties of the client *)

Section ExpansionProperties.

Context `{Environ}.

Lemma append_assoc (a b c : string) :
  ((a ++ b) ++ c = a ++ (b ++ c))%string.
Proof. induction a as [|x a IH]; cbn; [reflexivity | now rewrite IH]. Qed.

Lemma continuation_app (p s : string) :
  ascii_start s = true ->
  continuation (p ++ s)
  = match continuation p with
    | Some (c, rest) => Some (c, (rest ++ s)%string)
    | None => None
    end.
Proof.
  intros Hs. destruct p as [|b p]; cbn.
  - destruct s as [|a s]; [reflexivity|]. cbn in *.
    destruct (N.leb_spec 128 (N_of_ascii a)); [|reflexivity].
    apply N.ltb_lt in Hs. lia.
  - destruct ((128 <=? N_of_ascii b)%N && (N_of_ascii b <? 192)%N);
      reflexivity.
Qed.

Lemma continuation_length (s s' : string) (c : N) :
  continuation s = Some (c, s') -> String.length s = S (String.length s').
Proof.
  destruct s as [|b s0]; cbn; [discriminate|].
  destruct ((128 <=? N_of_ascii b)%N && (N_of_ascii b <? 192)%N);
    [|discriminate].
  intros Heq. inversion Heq. reflexivity.
Qed.

(** What a string starts with does not depend on what comes after an ASCII
    byte. *)
Lemma decode_app (b : ascii) (p s : string) :
  ascii_start s = true ->
  decode (String b (p ++ s)) = decode (String b p).
Proof.
  intros Hs. unfold decode.
  rewrite (continuation_app p s Hs).
  destruct (continuation p) as [[c1 s2]|]; [|reflexivity].
  rewrite (continuation_app s2 s Hs).
  destruct (continuation s2) as [[c2 s3]|]; [|reflexivity].
  rewrite (continuation_app s3 s Hs).
  destruct (continuation s3) as [[c3 s4]|]; reflexivity.
Qed.

Lemma decode_length (t : string) (cp : N) (len : nat) :
  decode t = Some (cp, len) -> (1 <= len <= String.length t)%nat.
Proof.
  destruct t as [|b0 s1]; cbn [decode]; [discriminate|].
  destruct (N_of_ascii b0 <? 128)%N.
  { intros Heq. inversion Heq. cbn. lia. }
  destruct (N_of_ascii b0 <? 192)%N; [discriminate|].
  destruct (continuation s1) as [[c1 s2]|] eqn:H1.
  2: { repeat match goal with
              | |- context [if ?c then _ else _] => destruct c
              end; discriminate. }
  apply continuation_length in H1.
  destruct (N_of_ascii b0 <? 224)%N.
  { intros Heq. inversion Heq. cbn. lia. }
  destruct (continuation s2) as [[c2 s3]|] eqn:H2.
  2: { repeat match goal with
              | |- context [if ?c then _ else _] => destruct c
              end; discriminate. }
  apply continuation_length in H2.
  destruct (N_of_ascii b0 <? 240)%N.
  { intros Heq. inversion Heq. cbn. lia. }
  destruct (continuation s3) as [[c3 s4]|] eqn:H3.
  2: { repeat match goal with
              | |- context [if ?c then _ else _] => destruct c
              end; discriminate. }
  apply continuation_length in H3.
  destruct (N_of_ascii b0 <? 248)%N; [|discriminate].
  intros Heq. inversion Heq. cbn. lia.
Qed.

Lemma take_word_from_app (p s : string) (inside : nat) :
  take_word s = "" -> ascii_start s = true ->
  (inside <= String.length p)%nat ->
  take_word_from inside (p ++ s) = take_word_from inside p.
Proof.
  intros Hs Ha. revert inside.
  induction p as [|b p IH]; intros inside Hin.
  - cbn in Hin. assert (inside = 0%nat) as -> by lia. exact Hs.
  - cbn [append take_word_from]. destruct inside as [|k].
    + rewrite (decode_app b p s Ha).
      destruct (decode (String b p)) as [[cp len]|] eqn:Hd; [|reflexivity].
      destruct (is_word cp); [|reflexivity].
      apply decode_length in Hd. cbn in Hd.
      rewrite IH by lia. reflexivity.
    + cbn in Hin. rewrite IH by lia. reflexivity.
Qed.

Lemma take_word_from_length (p : string) (inside : nat) :
  (String.length (take_word_from inside p) <= String.length p)%nat.
Proof.
  revert inside. induction p as [|b p IH]; intros inside; cbn [take_word_from].
  - cbn. lia.
  - destruct inside as [|k].
    + destruct (decode (String b p)) as [[cp len]|]; [|cbn; lia].
      destruct (is_word cp); [|cbn; lia].
      cbn [String.length]. specialize (IH (len - 1)%nat). lia.
    + cbn [String.length]. specialize (IH k). lia.
Qed.

Lemma take_word_app (p s : string) :
  take_word s = "" -> ascii_start s = true ->
  take_word (p ++ s) = take_word p.
Proof.
  intros Hs Ha. apply take_word_from_app; [assumption | assumption | lia].
Qed.

Lemma take_word_length (p : string) :
  (String.length (take_word p) <= String.length p)%nat.
Proof. apply take_word_from_length. Qed.

(** Expansion works through a URL piece by piece, as long as the second
    piece does not start with a word character. *)
Lemma sub_from_app (p s : string) (skip : nat) :
  (skip <= String.length p)%nat -> take_word s = "" ->
  ascii_start s = true ->
  sub_from skip (p ++ s)
  = ((fst (sub_from skip p) ++ fst (sub_from 0 s))%string,
     snd (sub_from skip p) ++ snd (sub_from 0 s)).
Proof.
  intros Hskip Hs Ha. revert skip Hskip.
  induction p as [|c p IH]; intros skip Hskip.
  - cbn in Hskip. assert (skip = 0%nat) as -> by lia.
    cbn. now destruct (sub_from 0 s).
  - cbn [append sub_from]. destruct skip as [|k].
    + rewrite (take_word_app p s Hs Ha).
      destruct (Ascii.eqb c "$").
      * destruct (String.eqb (take_word p) "").
        -- rewrite (IH 0%nat) by lia.
           destruct (sub_from 0 p), (sub_from 0 s). reflexivity.
        -- rewrite (IH (String.length (take_word p)))
             by apply take_word_length.
           destruct (expand_env (take_word p)) as [r w1].
           destruct (sub_from (String.length (take_word p)) p),
             (sub_from 0 s).
           cbn [fst snd]. now rewrite append_assoc, app_assoc.
      * rewrite (IH 0%nat) by lia.
        destruct (sub_from 0 p), (sub_from 0 s). reflexivity.
    + cbn in Hskip. apply IH. lia.
Qed.

Lemma sub_from_skip (n r : string) :
  sub_from (String.length n) (n ++ r) = sub_from 0 r.
Proof. induction n as [|c n IH]; cbn; [reflexivity | exact IH]. Qed.

(** A token at the head of a URL whose name is not set: nothing is put in
    its place and one warning is logged. *)
Lemma sub_from_unbound_token (n r : string) :
  n <> "" -> take_word (n ++ r) = n -> environ n = None ->
  sub_from 0 ("$" ++ n ++ r)
  = (fst (sub_from 0 r),
     ("No environment var $" ++ n ++ " defined")%string
       :: snd (sub_from 0 r)).
Proof.
  intros Hn Htake Henv. cbn [append sub_from]. cbn [Ascii.eqb Bool.eqb].
  cbn [andb]. rewrite Htake.
  destruct (String.eqb n "") eqn:Hn'; [apply String.eqb_eq in Hn'; contradiction|].
  rewrite sub_from_skip.
  unfold expand_env. rewrite Henv.
  destruct (sub_from 0 r). reflexivity.
Qed.

Lemma expand_url_unbound_token (p n r : string) :
  n <> "" -> take_word (n ++ r) = n -> environ n = None ->
  expand_url (p ++ "$" ++ n ++ r)
  = ((fst (expand_url p) ++ fst (expand_url r))%string,
     snd (expand_url p)
     ++ ["No environment var $" ++ n ++ " defined"]%string
     ++ snd (expand_url r)).
Proof.
  intros Hn Htake Henv. unfold expand_url.
  rewrite sub_from_app; [|lia|reflexivity|reflexivity].
  rewrite (sub_from_unbound_token n r Hn Htake Henv). reflexivity.
Qed.

End ExpansionProperties.

Section ClientProperties.

Context {multipart P : Type}.
Context `{Environ} `{Codec multipart} `{Builtins} `{Transport multipart P}.

Local Abbreviation client := (client (multipart := multipart) (P := P)).

Ltac unfold_client :=
  unfold GymProxyClient, reset, _reset, proxy_rpc, rpc, send_recv,
    GymProxyClientSocket, get_c_session_id,
    bind, lift, ret, raise, gets, modify in *.

(** Whatever the server answers, a constructor that got its socket ends
    with that socket on the expanded URL, with the warnings of the
    expansion logged, and with the setup request sent first. *)
Lemma constructor_connects (u u' : string) (ws : list string)
    (kwargs : list (string * value)) (c : client) (p0 : P) :
  expand_url u = (u', ws) ->
  zmq_connect u' = Ret p0 ->
  exists o c' s more,
    GymProxyClient u kwargs c = (o, c') /\
    proxy c' = Some s /\ url s = u' /\
    warnings c' = warnings c ++ ws /\
    requests s = dump_msg (request_envelope "setup" (VDict kwargs)) :: more.
Proof.
  intros Hexp Hconn.
  destruct (GymProxyClient u kwargs c) as [o c'] eqn:Heq.
  unfold_client. rewrite Hexp in Heq. cbn in Heq. rewrite Hconn in Heq.
  crunch; do 4 eexists; conjuncts; reflexivity.
Qed.

(** C9, as the code has it.  For a URL with a token [$n] whose name [n] is
    not set in the process environment, the expansion returns: it logs the
    warning for [n] and puts nothing in the place of the token.  The
    constructor then goes on with the expanded URL: when the socket library
    takes it, the socket is built and the setup request is sent; when the
    socket library refuses it, the constructor raises what the library
    raised, with the warning logged. *)
Theorem unbound_variable_expands_to_empty (p n r : string)
    (kwargs : list (string * value)) :
  n <> "" -> take_word (n ++ r) = n -> environ n = None ->
  let u := (p ++ "$" ++ n ++ r)%string in
  let u' := (fst (expand_url p) ++ fst (expand_url r))%string in
  let ws :=
    snd (expand_url p)
    ++ ["No environment var $" ++ n ++ " defined"]%string
    ++ snd (expand_url r) in
  expand_url u = (u', ws) /\
  (forall p0 : P,
      zmq_connect u' = Ret p0 ->
      exists o (c' : client) s more,
        GymProxyClient u kwargs new_client = (o, c') /\
        proxy c' = Some s /\ url s = u' /\
        warnings c' = ws /\
        requests s
        = dump_msg (request_envelope "setup" (VDict kwargs)) :: more) /\
  (forall e : exn,
      zmq_connect u' = Raise e ->
      GymProxyClient u kwargs new_client = (Raise e, warn ws new_client)).
Proof.
  intros Hn Htake Henv u u' ws.
  assert (Hexp : expand_url u = (u', ws))
    by (apply expand_url_unbound_token; assumption).
  conjuncts.
  - exact Hexp.
  - intros p0 Hconn.
    apply (constructor_connects u u' ws kwargs new_client p0 Hexp Hconn).
  - intros e Hconn. unfold_client. rewrite Hexp. cbn. rewrite Hconn.
    reflexivity.
Qed.

(** C10.  When the socket is built and the setup reply carries the four
    fields, the constructor sends exactly two requests before it returns or
    raises: the setup request and then a reset request with the session id
    of the setup reply.  It raises with the server's error when the reset
    reply is an error reply, and with "Wrong session id" when the reset
    reply carries another session id; it returns when the reset reply
    carries the same session id and an observation. *)
Theorem constructor_resets (u : string) (kwargs : list (string * value))
    (p0 p1 p2 : P) (rx1 rx2 : multipart)
    (ans1 res1 acs os rr rr' sid ans2 : value) :
  zmq_connect (fst (expand_url u)) = Ret p0 ->
  exchange (dump_msg (request_envelope "setup" (VDict kwargs))) p0
  = (rx1, p1) ->
  load_msg rx1 = Ret ans1 ->
  subscript ans1 "error" = Ret VNone ->
  subscript ans1 "result" = Ret res1 ->
  subscript res1 "action_space" = Ret acs ->
  subscript res1 "observation_space" = Ret os ->
  subscript res1 "reward_range" = Ret rr ->
  py_tuple rr = Ret rr' ->
  subscript res1 "session_id" = Ret sid ->
  exchange
    (dump_msg (request_envelope "reset" (VDict [("session_id", sid)]))) p1
  = (rx2, p2) ->
  load_msg rx2 = Ret ans2 ->
  exists o (c' : client) s,
    GymProxyClient u kwargs new_client = (o, c') /\
    proxy c' = Some s /\
    requests s
    = [dump_msg (request_envelope "setup" (VDict kwargs));
       dump_msg (request_envelope "reset" (VDict [("session_id", sid)]))] /\
    (forall err,
        subscript ans2 "error" = Ret err -> err <> VNone ->
        o = Raise (Exception (py_str err))) /\
    (forall res2 got,
        subscript ans2 "error" = Ret VNone ->
        subscript ans2 "result" = Ret res2 ->
        subscript res2 "session_id" = Ret got ->
        py_ne got sid = true ->
        o = Raise (Exception "Wrong session id")) /\
    (forall res2 got obs,
        subscript ans2 "error" = Ret VNone ->
        subscript ans2 "result" = Ret res2 ->
        subscript res2 "session_id" = Ret got ->
        py_ne got sid = false ->
        subscript res2 "obs" = Ret obs ->
        o = Ret tt).
Proof.
  intros Hconn Hx1 Hload1 Herr1 Hres1 Hacs Hos Hrr Htup Hsid Hx2 Hload2.
  destruct (expand_url u) as [u' ws] eqn:Hexp. cbn [fst] in Hconn.
  destruct (GymProxyClient u kwargs new_client) as [o c'] eqn:Heq.
  revert Heq. unfold_client. rewrite Hexp. cbn. rewrite Hconn. cbn.
  rewrite Hx1. cbn. rewrite Hload1. cbn. rewrite Herr1. cbn.
  rewrite Hres1. cbn. rewrite Hacs. cbn. rewrite Hos. cbn.
  rewrite Hrr. cbn. rewrite Htup. cbn. rewrite Hsid. cbn.
  rewrite Hx2. cbn. rewrite Hload2. cbn.
  intros Heq.
  crunch; do 3 eexists; conjuncts; try reflexivity;
    intros; crunch; try congruence;
    match goal with
    | Hn : is_None ?v = true |- _ => apply is_None_true in Hn; congruence
    end.
Qed.

End ClientProperties.


(** * Further properties of the server *)

Section ServerExtras.

Context {E R multipart : Type}.
Context `{Environment E} `{Factory E} `{Cookies R} `{Codec multipart}.
Context `{Builtins}.

Local Abbreviation server := (server (E := E) (R := R) (multipart := multipart)).
Local Abbreviation process := (process (E := E) (R := R) (multipart := multipart)).

(** *** One reply per request *)

(** [handle_msg] sends one reply when it returns and leaves the state alone
    when it raises. *)
Lemma handle_msg_sends_one (rx : multipart) (w : server) :
  match fst (handle_msg rx w) with
  | Ret _ => exists tx, sent (snd (handle_msg rx w)) = sent w ++ [tx]
  | Raise _ => snd (handle_msg rx w) = w
  end.
Proof.
  destruct (handle_msg rx w) as [o w'] eqn:Heq. cbn [fst snd].
  unfold_py. crunch; try reflexivity; eexists; reflexivity.
Qed.

(** X1.  [handle_msg] either returns, having counted the request once and
    sent exactly one reply, or raises, having sent nothing and changed
    nothing: an exception can only leave it from the lines before the
    [try]. *)
Theorem handle_msg_replies_once (rx : multipart) (w : server) :
  match fst (handle_msg rx w) with
  | Ret _ =>
      exists n tx,
        op_count w = Some n /\
        op_count (snd (handle_msg rx w)) = Some (n + 1) /\
        sent (snd (handle_msg rx w)) = sent w ++ [tx]
  | Raise _ => snd (handle_msg rx w) = w
  end.
Proof.
  destruct (handle_msg rx w) as [o w'] eqn:Heq. cbn [fst snd].
  unfold_py. crunch; try reflexivity; do 2 eexists; repeat split.
Qed.

(** The [try] of [handle_msg] lets nothing through. *)
Lemma try_reply_returns (body : M server unit) (w : server) :
  fst (try_except body (fun e => reply VNone (VStr (error_text e))) w) = Ret tt.
Proof.
  unfold try_except. destruct (body w) as [[[]|e] w']; reflexivity.
Qed.

(** X2.  [handle_msg] returns exactly when the message decodes to a dict and
    the counter has been assigned; whatever the request then asks for and
    whatever the handler or the environment does, the exception is turned
    into a reply. *)
Theorem handle_msg_returns_iff (rx : multipart) (w : server) :
  fst (handle_msg rx w) = Ret tt <->
  exists d n, load_msg rx = Ret (VDict d) /\ op_count w = Some n.
Proof.
  split.
  - destruct (handle_msg rx w) as [o w'] eqn:Heq. cbn [fst]. intros ->.
    unfold handle_msg, bind, lift, incr_op_count in Heq.
    destruct (load_msg rx) as [rpc|e]; [|discriminate].
    destruct rpc; cbn in Heq; try discriminate.
    destruct (assoc "method" d); cbn in Heq;
      (destruct (assoc "params" d); cbn in Heq;
       (destruct (op_count w) as [n|]; [|discriminate]));
      now exists d, n.
  - intros (d & n & Hload & Hn).
    unfold handle_msg, bind, lift, incr_op_count.
    rewrite Hload. unfold dict_get.
    destruct (assoc "method" d); destruct (assoc "params" d);
      cbv beta iota; rewrite Hn; cbv beta iota; apply try_reply_returns.
Qed.

(** A request handled by a live [run_main] adds one reply; a monitor event
    adds none. *)
Lemma deliver_reply_count (p : process) (ev : event) :
  main_alive (deliver p ev) = true ->
  main_alive p = true /\
  length (sent (obj (deliver p ev)))
  = (length (sent (obj p)) + requests_in [ev])%nat.
Proof.
  destruct ev as [rx | ev]; cbn [deliver requests_in].
  - unfold run_main_iter. destruct (main_alive p) eqn:Ha.
    + pose proof (handle_msg_sends_one rx (obj p)) as Honce.
      destruct (handle_msg rx (obj p)) as [[[]|e] w'] eqn:Heq;
        cbn [fst snd] in Honce; cbn [main_alive obj]; [|discriminate].
      intros _. split; [reflexivity|].
      destruct Honce as (tx & ->). rewrite length_app. cbn. lia.
    + intros Hcontra. rewrite Ha in Hcontra. discriminate.
  - unfold run_monitor_iter. intros Halive.
    assert (Hsame : main_alive p = true /\
                    sent (obj (if monitor_alive p then
                                 match ev with
                                 | EVENT_ACCEPTED =>
                                     match opened (obj p) with
                                     | (Ret _, w) => mkProcess w (main_alive p) true
                                     | (Raise _, w) => mkProcess w (main_alive p) false
                                     end
                                 | EVENT_DISCONNECTED =>
                                     match closed (obj p) with
                                     | (Ret _, w) => mkProcess w (main_alive p) true
                                     | (Raise _, w) => mkProcess w (main_alive p) false
                                     end
                                 | EVENT_OTHER _ => p
                                 end
                               else p)) = sent (obj p)).
    { destruct (monitor_alive p); [|now split].
      destruct ev; [| |now split].
      - destruct (opened (obj p)) as [o w'] eqn:Heq.
        apply sent_opened in Heq. destruct o; now split.
      - destruct (closed (obj p)) as [o w'] eqn:Heq.
        apply sent_closed in Heq. destruct o; now split. }
    destruct Hsame as [Hmain Hsent]. split; [exact Hmain|].
    rewrite Hsent. lia.
Qed.

(** X3.  One in, one out: as long as [run_main] is alive at the end of a
    sequence of requests and monitor events, the server has sent exactly as
    many replies as it has received requests. *)
Theorem one_reply_per_request (evs : list event) (p : process) :
  main_alive (run evs p) = true ->
  length (sent (obj (run evs p)))
  = (length (sent (obj p)) + requests_in evs)%nat.
Proof.
  revert p. induction evs as [|ev evs IH]; intros p Halive.
  - cbn. lia.
  - change (run (ev :: evs) p) with (run evs (deliver p ev)) in *.
    assert (Hstep : main_alive (deliver p ev) = true).
    { destruct (main_alive (deliver p ev)) eqn:Hd; [reflexivity|].
      destruct (run_main_ended evs _ Hd) as [Hcontra _]. congruence. }
    rewrite (IH _ Halive).
    destruct (deliver_reply_count p ev Hstep) as [_ ->].
    destruct ev; cbn [requests_in]; lia.
Qed.

(** *** Requests the dispatch refuses *)

(** X4.  A request whose [method] is none of the five strings, be it
    another string, a number, [None] or no [method] at all, is answered with
    the error "unknown method" followed by [str] of what it asked for;
    nothing but the counter changes and [run_main] goes on. *)
Theorem unknown_method_is_refused (w : server) (rx : multipart)
    (rpc rpc_method params : value) (n : Z) :
  op_count w = Some n ->
  load_msg rx = Ret rpc ->
  dict_get rpc "method" = Ret rpc_method ->
  dict_get rpc "params" = Ret params ->
  rpc_method <> VStr "step" -> rpc_method <> VStr "reset" ->
  rpc_method <> VStr "setup" -> rpc_method <> VStr "close" ->
  rpc_method <> VStr "render" ->
  handle_msg rx w =
    (Ret tt,
     send_multipart
       (error_reply
          ("<class 'Exception'>: unknown method " ++ py_str rpc_method)%string)
       (set_op_count (Some (n + 1)) w)).
Proof.
  intros Hn Hload Hm Hp Ne1 Ne2 Ne3 Ne4 Ne5.
  apply py_ne_str_true, negb_true_iff in Ne1, Ne2, Ne3, Ne4, Ne5.
  unfold handle_msg, dispatch, try_except, reply, incr_op_count,
    bind, lift, raise, modify.
  rewrite Hload, Hm, Hp, Hn, Ne1, Ne2, Ne3, Ne4, Ne5. reflexivity.
Qed.

(** X5.  In a step, reset, render or close request the session id is looked
    up first: when [params] has no [session_id], or is not a dict at all, the
    request is answered with that KeyError or TypeError, whatever the state of
    the session, and nothing but the counter changes. *)
Theorem request_without_session_id (w : server) (g : gated) (rx : multipart)
    (params : value) (ex : exn) (n : Z) :
  op_count w = Some n ->
  is_request rx (method_of g) params ->
  subscript params "session_id" = Raise ex ->
  handle_msg rx w =
    (Ret tt,
     send_multipart (error_reply (error_text ex))
                    (set_op_count (Some (n + 1)) w)).
Proof.
  intros Hn (rpc & Hload & Hm & Hp) Hsub.
  destruct g; cbn in Hm; run_py; reflexivity.
Qed.

(** *** Setup *)

(** X6.  A setup request when no name is set, for a name the factory knows:
    the factory is called once, the environment, the name and a fresh cookie
    are stored, and the reply carries the three descriptors of the
    environment and the cookie.  That cookie opens the gate: a step, reset,
    render or close request that carries it is served. *)
Theorem setup_opens_session (w : server) (rx : multipart)
    (params name : value) (n : Z) (e : E) :
  env_name w = VNone -> op_count w = Some n ->
  is_request rx "setup" params ->
  subscript params "env_name" = Ret name ->
  make_env name = Ret e ->
  let cookie := fst (mk_random_cookie (rng w)) in
  exists w1,
    handle_msg rx w = (Ret tt, w1) /\
    sent w1 =
      sent w ++
      [ok_reply (VDict [("observation_space", observation_space e);
                        ("action_space", action_space e);
                        ("reward_range", reward_range e);
                        ("session_id", VStr cookie)])] /\
    calls w1 = calls w ++ [CallMake name] /\
    env w1 = Some e /\ env_name w1 = name /\
    session_id w1 = Some cookie /\
    rng w1 = snd (mk_random_cookie (rng w)) /\
    forall (g : gated) (rx2 : multipart) (params2 : value),
      is_request rx2 (method_of g) params2 ->
      subscript params2 "session_id" = Ret (VStr cookie) ->
      carries_arguments g params2 ->
      env_call_returns g params2 e ->
      exists w2 result,
        handle_msg rx2 w1 = (Ret tt, w2) /\
        sent w2 = sent w1 ++ [ok_reply result] /\
        subscript result "session_id" = Ret (VStr cookie).
Proof.
  intros Hname Hn Hreq Hsub Hmake cookie.
  eexists. split; [eapply handle_msg_setup; eassumption|].
  cbv zeta. repeat (split; [fields; reflexivity|]).
  intros g rx2 params2 Hreq2 Hgiven2 Hargs2 Hcall2.
  eapply (matching_request_served _ g rx2 params2 _ (n + 1) e);
    try eassumption; reflexivity.
Qed.

(** X7.  A setup request the factory refuses: the request is answered with
    the exception of the factory, and neither the environment, nor the name,
    nor the session id, nor the random source is touched, so that the setup
    can be asked again. *)
Theorem setup_refused_by_factory (w : server) (rx : multipart)
    (params name : value) (n : Z) (ex : exn) :
  env_name w = VNone -> op_count w = Some n ->
  is_request rx "setup" params ->
  subscript params "env_name" = Ret name ->
  make_env name = Raise ex ->
  handle_msg rx w =
    (Ret tt,
     send_multipart (error_reply (error_text ex))
       (log_call (CallMake name) (set_op_count (Some (n + 1)) w))).
Proof.
  intros Hname Hn (rpc & Hload & Hm & Hp) Hsub Hmake.
  run_py. reflexivity.
Qed.

(** *** What every reachable state satisfies *)

Lemma well_formed_init (r : R) : well_formed (init r : server).
Proof. unfold well_formed. cbn. repeat split; congruence. Qed.

Lemma well_formed_opened (w w' : server) (o : outcome unit) :
  well_formed w -> opened w = (o, w') -> well_formed w'.
Proof.
  unfold_py. unfold well_formed. intros (I1 & I2 & I3 & I4) Heq.
  crunch. repeat split; try congruence; try assumption.
  intros n Hn. inversion Hn. lia.
Qed.

Lemma well_formed_closed (w w' : server) (o : outcome unit) :
  well_formed w -> closed w = (o, w') -> well_formed w'.
Proof.
  unfold_py. unfold well_formed. intros (I1 & I2 & I3 & I4) Heq.
  crunch; repeat split; try congruence; try assumption;
    intros _; apply I2; congruence.
Qed.

Lemma well_formed_handle_msg (w w' : server) (rx : multipart)
    (o : outcome unit) :
  well_formed w -> handle_msg rx w = (o, w') -> well_formed w'.
Proof.
  unfold_py. unfold well_formed. intros (I1 & I2 & I3 & I4) Heq.
  crunch; repeat split; try solve [intuition congruence];
    intros k Hk; try (apply I4; assumption);
    inversion Hk; subst; specialize (I4 _ eq_refl); lia.
Qed.

Lemma well_formed_deliver (p : process) (ev : event) :
  well_formed (obj p) -> well_formed (obj (deliver p ev)).
Proof.
  intros Hwf. destruct ev as [rx | ev]; cbn [deliver].
  - unfold run_main_iter. destruct (main_alive p); [|exact Hwf].
    destruct (handle_msg rx (obj p)) as [o w'] eqn:Heq.
    apply (well_formed_handle_msg _ _ _ _ Hwf) in Heq. destruct o; exact Heq.
  - unfold run_monitor_iter. destruct (monitor_alive p); [|exact Hwf].
    destruct ev; [| |exact Hwf].
    + destruct (opened (obj p)) as [o w'] eqn:Heq.
      apply (well_formed_opened _ _ _ Hwf) in Heq. destruct o; exact Heq.
    + destruct (closed (obj p)) as [o w'] eqn:Heq.
      apply (well_formed_closed _ _ _ Hwf) in Heq. destruct o; exact Heq.
Qed.

(** X8.  Whatever requests and monitor events a server has seen since
    [__init__], in whatever order: a name is only set with an environment,
    an environment is only held under a session id, a session id is only
    assigned once the counter is, and the counter is never negative. *)
Theorem reachable_well_formed (r : R) (evs : list event) :
  well_formed (obj (run evs (boot r : process))).
Proof.
  assert (Hgen : forall p : process,
             well_formed (obj p) -> well_formed (obj (run evs p))).
  { induction evs as [|ev evs IH]; intros p Hwf; [exact Hwf|].
    change (run (ev :: evs) p) with (run evs (deliver p ev)).
    apply IH, well_formed_deliver, Hwf. }
  apply Hgen, well_formed_init.
Qed.

(** *** The monitor *)

(** X9.  Handling a disconnect twice is handling it once: whether the first
    one found an environment or not, and whether its [close] returned or
    raised, the second one changes nothing. *)
Theorem disconnect_is_idempotent (p : process) :
  deliver (deliver p (Monitor EVENT_DISCONNECTED)) (Monitor EVENT_DISCONNECTED)
  = deliver p (Monitor EVENT_DISCONNECTED).
Proof.
  destruct (monitor_alive p) eqn:Ha.
  - destruct (env (obj p)) as [e|] eqn:He.
    + destruct (env_close e) as [o e'] eqn:Hclose.
      rewrite (deliver_disconnected p e e' o Ha He Hclose).
      destruct o; reflexivity.
    + assert (Hq : deliver p (Monitor EVENT_DISCONNECTED)
                   = mkProcess (set_env None (set_env_name VNone (obj p)))
                               (main_alive p) true).
      { cbn [deliver]. unfold run_monitor_iter. rewrite Ha.
        run_py. reflexivity. }
      rewrite Hq. reflexivity.
  - assert (Hq : deliver p (Monitor EVENT_DISCONNECTED) = p).
    { cbn [deliver]. unfold run_monitor_iter. now rewrite Ha. }
    now rewrite !Hq.
Qed.

(** *** What a served request passes on *)

(** X10.  A step request under the session id hands [params['action']] to
    [env.step] as it is, and the reply carries the observation, the reward,
    the done flag and the info of the tuple that came back, each under its
    own key, with the session id; the environment keeps the state the call
    left it in, and the name and the session id are untouched. *)
Theorem step_passes_through (w : server) (rx : multipart)
    (params a obs reward done info : value) (sid : string) (n : Z)
    (e e' : E) :
  op_count w = Some n -> session_id w = Some sid -> env w = Some e ->
  is_request rx "step" params ->
  subscript params "session_id" = Ret (VStr sid) ->
  subscript params "action" = Ret a ->
  env_step a e = (Ret (obs, reward, done, info), e') ->
  exists w',
    handle_msg rx w = (Ret tt, w') /\
    sent w' =
      sent w ++
      [ok_reply (VDict [("obs", obs); ("reward", reward); ("done", done);
                        ("info", info); ("session_id", VStr sid)])] /\
    calls w' = calls w ++ [CallStep a] /\
    env w' = Some e' /\ env_name w' = env_name w /\
    session_id w' = Some sid /\ op_count w' = Some (n + 1).
Proof.
  intros Hn Hsid He Hreq Hgiven Ha Hstep.
  eexists. split.
  - eapply (handle_msg_step w rx params sid n Hn Hsid Hgiven a e e'
                            (Ret (obs, reward, done, info)));
      eassumption.
  - conjuncts; fields; try reflexivity; assumption.
Qed.

(** X11.  A render request under the session id hands [params['mode']] and
    [params['close']] to [env.render] in that order, and the reply carries
    what came back under [img], with the session id; a request that lacks
    [mode] or [close] is answered with the KeyError and calls nothing. *)
Theorem render_passes_through (w : server) (rx : multipart)
    (params : value) (sid : string) (n : Z) (e : E) :
  op_count w = Some n -> session_id w = Some sid -> env w = Some e ->
  is_request rx "render" params ->
  subscript params "session_id" = Ret (VStr sid) ->
  (forall mode close img e',
      subscript params "mode" = Ret mode ->
      subscript params "close" = Ret close ->
      env_render mode close e = (Ret img, e') ->
      exists w',
        handle_msg rx w = (Ret tt, w') /\
        sent w' =
          sent w ++
          [ok_reply (VDict [("img", img); ("session_id", VStr sid)])] /\
        calls w' = calls w ++ [CallRender mode close] /\
        env w' = Some e') /\
  (forall ex,
      subscript params "mode" = Raise ex \/
      (exists mode, subscript params "mode" = Ret mode /\
                    subscript params "close" = Raise ex) ->
      exists w',
        handle_msg rx w = (Ret tt, w') /\
        sent w' = sent w ++ [error_reply (error_text ex)] /\
        calls w' = calls w /\ env w' = Some e).
Proof.
  intros Hn Hsid He Hreq Hgiven. split.
  - intros mode close img e' Hmode Hclose Hrender.
    eexists. split.
    + eapply (handle_msg_render w rx params sid n Hn Hsid Hgiven mode close
                                e e' (Ret img));
        eassumption.
    + conjuncts; fields; reflexivity.
  - intros ex Hmissing. destruct Hreq as (rpc & Hload & Hm & Hp).
    pose proof (py_ne_str_same sid) as Hsame.
    destruct Hmissing as [Hmode | (mode & Hmode & Hclose)];
      (eexists; split; [run_py; reflexivity|]);
      conjuncts; fields; try reflexivity; assumption.
Qed.

End ServerExtras.

(** * Further properties of the client *)

Section ExpansionExtras.

Context `{Environ}.

(** A token at the head of a URL whose name is set: its value is put in its
    place as it is, and nothing is logged. *)
Lemma sub_from_bound_token (n r v : string) :
  n <> "" -> take_word (n ++ r) = n -> environ n = Some v ->
  sub_from 0 ("$" ++ n ++ r)
  = ((v ++ fst (sub_from 0 r))%string, snd (sub_from 0 r)).
Proof.
  intros Hn Htake Henv. cbn [append sub_from]. cbn [Ascii.eqb Bool.eqb].
  cbn [andb]. rewrite Htake.
  destruct (String.eqb n "") eqn:Hn'; [apply String.eqb_eq in Hn'; contradiction|].
  rewrite sub_from_skip.
  unfold expand_env. rewrite Henv.
  destruct (sub_from 0 r). reflexivity.
Qed.

(** X12.  A token [$n] whose name is set in the process environment is
    replaced by the value of [n], taken as it is: the value is not expanded
    again, nothing is logged for the token, and the text before and after it
    is expanded on its own. *)
Theorem bound_variable_is_substituted (p n r v : string) :
  n <> "" -> take_word (n ++ r) = n -> environ n = Some v ->
  expand_url (p ++ "$" ++ n ++ r)
  = ((fst (expand_url p) ++ v ++ fst (expand_url r))%string,
     snd (expand_url p) ++ snd (expand_url r)).
Proof.
  intros Hn Htake Henv. unfold expand_url.
  rewrite sub_from_app; [|lia|reflexivity|reflexivity].
  rewrite (sub_from_bound_token n r v Hn Htake Henv). reflexivity.
Qed.

(** X13.  A [$] that no word character follows is no token: it stays in the
    URL and nothing is logged for it. *)
Theorem lone_dollar_is_kept (p r : string) :
  take_word r = "" ->
  expand_url (p ++ "$" ++ r)
  = ((fst (expand_url p) ++ "$" ++ fst (expand_url r))%string,
     snd (expand_url p) ++ snd (expand_url r)).
Proof.
  intros Htake. unfold expand_url.
  rewrite sub_from_app; [|lia|reflexivity|reflexivity].
  cbn [append sub_from]. cbn [Ascii.eqb Bool.eqb]. cbn [andb].
  rewrite Htake. cbn [String.eqb].
  destruct (sub_from 0 r). reflexivity.
Qed.

(** X14.  A URL without a [$] comes out of the expansion as it went in, and
    nothing is logged. *)
Theorem expand_url_without_dollar (u : string) :
  dollar_free u = true -> expand_url u = (u, []).
Proof.
  unfold expand_url. induction u as [|c u IH]; cbn [dollar_free sub_from].
  - reflexivity.
  - intros Hfree. apply andb_prop in Hfree. destruct Hfree as [Hc Hu].
    destruct (Ascii.eqb c "$"); [discriminate|].
    now rewrite (IH Hu).
Qed.

(** X15.  Warnings come from unset names only: when every name is set in the
    process environment, the expansion of any URL logs nothing. *)
Theorem all_bound_no_warning (u : string) :
  (forall n, environ n <> None) -> snd (expand_url u) = [].
Proof.
  intros Hall. unfold expand_url. generalize 0%nat.
  induction u as [|c u IH]; intros skip; cbn [sub_from]; [reflexivity|].
  destruct skip as [|k]; [|apply IH].
  destruct (Ascii.eqb c "$").
  - destruct (String.eqb (take_word u) "").
    + specialize (IH 0%nat). destruct (sub_from 0 u). exact IH.
    + unfold expand_env.
      destruct (environ (take_word u)) as [v|] eqn:Henv;
        [|now apply Hall in Henv].
      specialize (IH (String.length (take_word u))).
      destruct (sub_from (String.length (take_word u)) u). exact IH.
  - specialize (IH 0%nat). destruct (sub_from 0 u). exact IH.
Qed.

End ExpansionExtras.

Section ClientExtras.

Context {multipart P : Type}.
Context `{Environ} `{Codec multipart} `{Builtins} `{Transport multipart P}.

Local Abbreviation client := (client (multipart := multipart) (P := P)).
Local Abbreviation client_socket :=
  (client_socket (multipart := multipart) (P := P)).

(** X16.  [rpc] sends its request and takes one reply, no more, whatever the
    reply holds.  When the [error] of the reply is a string it raises an
    Exception with that very string, and [result] is not looked at; when the
    [error] is [None] it returns [result]; a reply that does not decode, or
    that has no [error], raises what the decoding or the lookup raised. *)
Theorem rpc_one_exchange (method : string) (params : value)
    (s : client_socket) (rx : multipart) (p' : P) :
  exchange (dump_msg (request_envelope method params)) (sock s) = (rx, p') ->
  snd (rpc method params s)
  = mkSocket (url s) p'
             (requests s ++ [dump_msg (request_envelope method params)]) /\
  (forall e, load_msg rx = Raise e -> fst (rpc method params s) = Raise e) /\
  (forall ans,
      load_msg rx = Ret ans ->
      (forall e, subscript ans "error" = Raise e ->
                 fst (rpc method params s) = Raise e) /\
      (forall msg, subscript ans "error" = Ret (VStr msg) ->
                   fst (rpc method params s) = Raise (Exception msg)) /\
      (subscript ans "error" = Ret VNone ->
       fst (rpc method params s) = subscript ans "result")).
Proof.
  intros Hx. unfold rpc, send_recv, bind, lift, raise. rewrite Hx. cbn [fst snd].
  conjuncts.
  - destruct (load_msg rx) as [ans|e]; [|reflexivity].
    destruct (subscript ans "error") as [err|e]; [|reflexivity].
    destruct (is_None err); [|reflexivity].
    destruct (subscript ans "result"); reflexivity.
  - intros e ->. reflexivity.
  - intros ans ->. conjuncts.
    + intros e ->. reflexivity.
    + intros msg ->. reflexivity.
    + intros ->. cbn. destruct (subscript ans "result"); reflexivity.
Qed.

Lemma proxy_rpc_keeps_session_id (method : string) (params : value)
    (c c1 : client) (o : outcome value) :
  proxy_rpc method params c = (o, c1) -> c_session_id c1 = c_session_id c.
Proof.
  unfold proxy_rpc. destruct (proxy c) as [s|].
  - destruct (rpc method params s) as [r s']. intros Heq. inversion Heq.
    reflexivity.
  - intros Heq. inversion Heq. reflexivity.
Qed.

(** X17.  [_step] sends the action with the stored session id.  It raises
    what the call raised; it raises "Wrong session id" when the result comes
    back under another session id, whatever else the result holds; and it
    returns the observation, reward, done flag and info of the result, in
    that order, when the session id is the stored one. *)
Theorem step_checks_the_reply (action sid : value) (c c1 : client)
    (o : outcome value) :
  c_session_id c = Some sid ->
  proxy_rpc "step" (VDict [("action", action); ("session_id", sid)]) c
  = (o, c1) ->
  match o with
  | Raise e => _step action c = (Raise e, c1)
  | Ret r =>
      forall got,
        subscript r "session_id" = Ret got ->
        (py_ne got sid = true ->
         _step action c = (Raise (Exception "Wrong session id"), c1)) /\
        (py_ne got sid = false ->
         forall obs reward done info,
           subscript r "obs" = Ret obs ->
           subscript r "reward" = Ret reward ->
           subscript r "done" = Ret done ->
           subscript r "info" = Ret info ->
           _step action c = (Ret (obs, reward, done, info), c1))
  end.
Proof.
  intros Hsid Hrpc.
  pose proof (proxy_rpc_keeps_session_id _ _ _ _ _ Hrpc) as Hkeep.
  rewrite Hsid in Hkeep.
  unfold _step, get_c_session_id, bind, lift, raise, ret.
  rewrite Hsid, Hrpc.
  destruct o as [r|e]; [|reflexivity].
  intros got Hgot. rewrite Hgot, Hkeep. split.
  - intros ->. reflexivity.
  - intros -> obs reward done info -> -> -> ->. reflexivity.
Qed.

(** X18.  [_reset] and [_render] make the same check on the reply: under
    another session id they raise "Wrong session id", under the stored one
    they return the [obs], respectively the [img], of the result. *)
Theorem reset_and_render_check_the_reply (mode close sid r got : value)
    (c c1 c2 : client) :
  c_session_id c = Some sid ->
  subscript r "session_id" = Ret got ->
  (proxy_rpc "reset" (VDict [("session_id", sid)]) c = (Ret r, c1) ->
   _reset c
   = (if py_ne got sid then Raise (Exception "Wrong session id")
      else subscript r "obs",
      c1)) /\
  (proxy_rpc "render"
             (VDict [("mode", mode); ("close", close); ("session_id", sid)]) c
   = (Ret r, c2) ->
   _render mode close c
   = (if py_ne got sid then Raise (Exception "Wrong session id")
      else subscript r "img",
      c2)).
Proof.
  intros Hsid Hgot. split; intros Hrpc;
    pose proof (proxy_rpc_keeps_session_id _ _ _ _ _ Hrpc) as Hkeep;
    rewrite Hsid in Hkeep;
    unfold _reset, _render, get_c_session_id, bind, lift, raise, ret;
    rewrite Hsid, Hrpc, Hgot, Hkeep;
    destruct (py_ne got sid); reflexivity.
Qed.

(** X19.  When the server answers the setup with an error, the constructor
    raises an Exception with the server's text and stops there: the setup is
    the only request it sent, no reset follows, and no session id is
    stored. *)
Theorem constructor_stops_on_refused_setup (u : string)
    (kwargs : list (string * value)) (p0 p1 : P) (rx1 : multipart)
    (ans1 err : value) :
  zmq_connect (fst (expand_url u)) = Ret p0 ->
  exchange (dump_msg (request_envelope "setup" (VDict kwargs))) p0
  = (rx1, p1) ->
  load_msg rx1 = Ret ans1 ->
  subscript ans1 "error" = Ret err ->
  err <> VNone ->
  exists c' : client,
    GymProxyClient u kwargs new_client = (Raise (Exception (py_str err)), c') /\
    proxy c'
    = Some (mkSocket (fst (expand_url u)) p1
                     [dump_msg (request_envelope "setup" (VDict kwargs))]) /\
    c_session_id c' = None.
Proof.
  intros Hconn Hx Hload Herr Hne.
  apply is_None_false in Hne.
  destruct (expand_url u) as [u' ws] eqn:Hexp. cbn [fst] in *.
  unfold GymProxyClient, proxy_rpc, rpc, send_recv, GymProxyClientSocket,
    bind, lift, raise, modify.
  rewrite Hexp. cbn. rewrite Hconn. cbn. rewrite Hx. cbn.
  rewrite Hload. cbn. rewrite Herr. cbn. rewrite Hne.
  eexists. conjuncts; reflexivity.
Qed.

End ClientExtras.

(** * The client and the server together *)

Section EndToEnd.

Context {E R multipart : Type}.
Context `{Environment E} `{Factory E} `{Cookies R} `{Codec multipart}.
Context `{Builtins} `{Environ}.

Local Abbreviation server := (server (E := E) (R := R) (multipart := multipart)).
Local Abbreviation process := (process (E := E) (R := R) (multipart := multipart)).
Local Abbreviation client := (client (multipart := multipart) (P := process)).

(** What the codec is for: decoding what was encoded gives the envelope
    back. *)
Hypothesis round_trip : forall v : value, load_msg (dump_msg v) = Ret v.

Lemma encoded_request (method : string) (params : value) :
  is_request (dump_msg (request_envelope method params)) method params.
Proof.
  exists (request_envelope method params). rewrite round_trip.
  repeat split.
Qed.

(** The exchange with a live server that answers. *)
Lemma exchange_answered (listening p : process) (tx reply : multipart)
    (w' : server) :
  main_alive p = true ->
  handle_msg tx (obj p) = (Ret tt, w') ->
  sent w' = sent (obj p) ++ [reply] ->
  exchange (Transport := via_server listening) tx p
  = (reply, mkProcess w' true (monitor_alive p)).
Proof.
  intros Halive Hmsg Hsent. cbn [exchange via_server deliver].
  unfold run_main_iter. rewrite Halive, Hmsg. cbn [obj].
  rewrite Hsent, length_app, last_last. cbn [length].
  destruct (Nat.eqb_spec (length (sent (obj p)) + 1) (length (sent (obj p))));
    [lia | reflexivity].
Qed.

(** A call through both ends that the server answers with a result. *)
Lemma proxy_rpc_answered (listening : process) (c : client)
    (s : client_socket (multipart := multipart) (P := process))
    (method : string) (params result : value) (w' : server) :
  proxy c = Some s -> main_alive (sock s) = true ->
  handle_msg (dump_msg (request_envelope method params)) (obj (sock s))
  = (Ret tt, w') ->
  sent w' = sent (obj (sock s)) ++ [ok_reply result] ->
  @proxy_rpc _ _ _ _ (via_server listening) method params c
  = (Ret result,
     set_proxy
       (mkSocket (url s) (mkProcess w' true (monitor_alive (sock s)))
                 (requests s ++ [dump_msg (request_envelope method params)]))
       c).
Proof.
  intros Hproxy Halive Hmsg Hsent.
  unfold proxy_rpc, rpc, send_recv, bind, lift. rewrite Hproxy.
  rewrite (exchange_answered listening (sock s) _ _ _ Halive Hmsg Hsent).
  unfold ok_reply. rewrite round_trip. reflexivity.
Qed.

(** X20.  A step through both ends.  When the client holds the session id
    of the server and the server holds an environment, [_step] returns the
    very tuple [env.step] returned; when [env.step] raises, [_step] raises an
    Exception whose text is the error text of the server, class and message.
    Either way one request went out, the environment was called once and
    [run_main] is alive. *)
Theorem step_end_to_end (listening : process) (c : client)
    (s : client_socket (multipart := multipart) (P := process))
    (a : value) (sid : string) (n : Z) (e e' : E)
    (o : outcome (value * value * value * value)) :
  proxy c = Some s -> c_session_id c = Some (VStr sid) ->
  main_alive (sock s) = true ->
  session_id (obj (sock s)) = Some sid ->
  env (obj (sock s)) = Some e ->
  op_count (obj (sock s)) = Some n ->
  env_step a e = (o, e') ->
  exists (c' : client) s',
    @_step _ _ _ _ (via_server listening) a c
    = (match o with
       | Ret t => Ret t
       | Raise ex => Raise (Exception (error_text ex))
       end, c') /\
    proxy c' = Some s' /\ c_session_id c' = Some (VStr sid) /\
    requests s'
    = requests s
      ++ [dump_msg (request_envelope "step"
                      (VDict [("action", a); ("session_id", VStr sid)]))] /\
    main_alive (sock s') = true /\
    env (obj (sock s')) = Some e' /\
    session_id (obj (sock s')) = Some sid /\
    calls (obj (sock s')) = calls (obj (sock s)) ++ [CallStep a].
Proof.
  intros Hproxy Hcsid Halive Hsid He Hn Hstep.
  set (params := VDict [("action", a); ("session_id", VStr sid)]).
  assert (Hmsg := handle_msg_step (obj (sock s))
                    (dump_msg (request_envelope "step" params)) params sid n
                    Hn Hsid eq_refl a e e' o
                    (encoded_request "step" params) eq_refl He Hstep).
  assert (Hx := fun reply Hsent =>
                  exchange_answered listening (sock s)
                    (dump_msg (request_envelope "step" params)) reply _
                    Halive Hmsg Hsent).
  unfold _step, get_c_session_id, proxy_rpc, rpc, send_recv,
    bind, lift, raise, ret.
  rewrite Hcsid, Hproxy. fold params.
  destruct o as [[[[obs reward] done] info]|ex];
    (erewrite Hx by (fields; reflexivity));
    unfold ok_reply, error_reply; rewrite round_trip; cbn;
    repeat (first [rewrite Hcsid | rewrite (py_ne_str_same sid)]; cbn);
    do 2 eexists; conjuncts; try reflexivity; fields; assumption.
Qed.


(** X21.  The constructor through both ends.  The two threads of the server
    are not synchronised, so the first request of a client may find the
    server before or after its monitor has handled the connection.  When it
    finds [run_main] alive, no name set and the counter assigned, as once the
    monitor has handled the connection accepted, then, whatever environment
    and session id the server was left with: if the factory knows the name
    given in [env_name] and the first [reset] of the new environment returns,
    the constructor returns; the client has stored the descriptors of the new
    environment and the cookie the server drew, the server holds the new
    environment under that same cookie, and the factory and [reset] were each
    called once. *)
Theorem constructor_end_to_end (listening : process) (u : string)
    (kwargs : list (string * value)) (name rr' obs : value) (e e' : E)
    (n : Z) :
  main_alive listening = true ->
  env_name (obj listening) = VNone ->
  op_count (obj listening) = Some n ->
  assoc "env_name" kwargs = Some name ->
  make_env name = Ret e ->
  py_tuple (reward_range e) = Ret rr' ->
  env_reset e = (Ret obs, e') ->
  let cookie := fst (mk_random_cookie (rng (obj listening))) in
  exists (c' : client) s',
    @GymProxyClient _ _ _ _ _ (via_server listening) u kwargs new_client
    = (Ret tt, c') /\
    proxy c' = Some s' /\
    c_session_id c' = Some (VStr cookie) /\
    c_action_space c' = Some (action_space e) /\
    c_observation_space c' = Some (observation_space e) /\
    c_reward_range c' = Some rr' /\
    main_alive (sock s') = true /\
    session_id (obj (sock s')) = Some cookie /\
    env (obj (sock s')) = Some e' /\ env_name (obj (sock s')) = name /\
    calls (obj (sock s'))
    = calls (obj listening) ++ [CallMake name; CallReset].
Proof.
  intros Hmain Hnone Hn Hname Hmake Htup Hreset cookie.
  set (tx1 := dump_msg (request_envelope "setup" (VDict kwargs))).
  assert (Hsub : subscript (VDict kwargs) "env_name" = Ret name)
    by (cbn; now rewrite Hname).
  assert (Hmsg1 := handle_msg_setup (obj listening) tx1 (VDict kwargs) name n e
                     Hnone Hn (encoded_request "setup" (VDict kwargs))
                     Hsub Hmake).
  cbv zeta in Hmsg1. fold cookie in Hmsg1.
  set (w1 := set_session_id (Some cookie)
               (set_rng (snd (mk_random_cookie (rng (obj listening))))
                  (set_env_name name
                     (set_env (Some e)
                        (log_call (CallMake name)
                           (set_op_count (Some (n + 1)) (obj listening))))))) in Hmsg1.
  set (reply1 := ok_reply (VDict [("observation_space", observation_space e);
                                  ("action_space", action_space e);
                                  ("reward_range", reward_range e);
                                  ("session_id", VStr cookie)])) in Hmsg1.
  set (params2 := VDict [("session_id", VStr cookie)]).
  set (tx2 := dump_msg (request_envelope "reset" params2)).
  assert (Hmsg2 := handle_msg_reset (send_multipart reply1 w1) tx2 params2
                     cookie (n + 1) eq_refl eq_refl eq_refl e e' (Ret obs)
                     (encoded_request "reset" params2) eq_refl Hreset).
  destruct (expand_url u) as [u' ws] eqn:Hexp.
  unfold GymProxyClient, reset, _reset, get_c_session_id,
    GymProxyClientSocket, bind, lift, raise, ret, modify.
  rewrite Hexp. cbn [zmq_connect via_server].
  erewrite (proxy_rpc_answered listening);
    [ | reflexivity | exact Hmain | exact Hmsg1 | reflexivity ].
  cbn -[proxy_rpc]. rewrite Htup. cbn -[proxy_rpc].
  erewrite (proxy_rpc_answered listening);
    [ | reflexivity | reflexivity | exact Hmsg2 | reflexivity ].
  cbn. rewrite (py_ne_str_same cookie). cbn.
  do 2 eexists. conjuncts; try reflexivity.
  subst w1. cbn. now rewrite <- app_assoc.
Qed.


(** A call through both ends that the server answers with an error. *)
Lemma proxy_rpc_refused (listening : process) (c : client)
    (s : client_socket (multipart := multipart) (P := process))
    (method msg : string) (params : value) (w' : server) :
  proxy c = Some s -> main_alive (sock s) = true ->
  handle_msg (dump_msg (request_envelope method params)) (obj (sock s))
  = (Ret tt, w') ->
  sent w' = sent (obj (sock s)) ++ [error_reply msg] ->
  @proxy_rpc _ _ _ _ (via_server listening) method params c
  = (Raise (Exception msg),
     set_proxy
       (mkSocket (url s) (mkProcess w' true (monitor_alive (sock s)))
                 (requests s ++ [dump_msg (request_envelope method params)]))
       c).
Proof.
  intros Hproxy Halive Hmsg Hsent.
  unfold proxy_rpc, rpc, send_recv, bind, lift. rewrite Hproxy.
  rewrite (exchange_answered listening (sock s) _ _ _ Halive Hmsg Hsent).
  unfold error_reply. rewrite round_trip. reflexivity.
Qed.

(** X22.  A client left with an old session id, through both ends: when the
    server has gone on to another session id, every [_step] of that client
    raises an Exception with the text the server replied,
    [<class 'Exception'>: Wrong session id], and the environment the server
    now holds is not called. *)
Theorem stale_client_is_refused (listening : process) (c : client)
    (s : client_socket (multipart := multipart) (P := process))
    (a : value) (sid sid' : string) (n : Z) :
  proxy c = Some s -> c_session_id c = Some (VStr sid) ->
  main_alive (sock s) = true ->
  session_id (obj (sock s)) = Some sid' -> sid <> sid' ->
  op_count (obj (sock s)) = Some n ->
  exists (c' : client) s',
    @_step _ _ _ _ (via_server listening) a c
    = (Raise (Exception "<class 'Exception'>: Wrong session id"), c') /\
    proxy c' = Some s' /\ main_alive (sock s') = true /\
    calls (obj (sock s')) = calls (obj (sock s)) /\
    env (obj (sock s')) = env (obj (sock s)) /\
    session_id (obj (sock s')) = Some sid'.
Proof.
  intros Hproxy Hcsid Halive Hsid Hne Hn.
  set (params := VDict [("action", a); ("session_id", VStr sid)]).
  assert (Hmsg := handle_msg_wrong_id (obj (sock s)) Step
                    (dump_msg (request_envelope "step" params)) params
                    (VStr sid) sid' n Hn Hsid
                    (encoded_request "step" params) eq_refl).
  unfold _step, get_c_session_id, bind, lift, raise, ret.
  rewrite Hcsid. fold params.
  erewrite (proxy_rpc_refused listening);
    [ | exact Hproxy | exact Halive | apply Hmsg; congruence | reflexivity ].
  do 2 eexists. conjuncts; try reflexivity; fields; assumption.
Qed.


End EndToEnd.
(** * The model at work on the concrete instance *)

Import Toy.

(** The toy session is where a connection and a setup lead. *)
Lemma active_reachable : reachable active.
Proof. exists 0%nat, connect_and_setup. reflexivity. Defined.

Lemma active_session_active : session_active active.
Proof. split; discriminate. Defined.

(** A toy request decodes to its method and parameters. *)
Lemma request_is_request (m : string) (ps : list (string * value)) :
  is_request (request m ps) m (VDict ps).
Proof. exists (VDict [("method", VStr m); ("params", VDict ps)]). repeat split. Defined.

(** The end-to-end run of the protocol: a setup, a step of the session, and a
    step under another id. *)
Example end_to_end :
  sent (obj (run (connect_and_setup ++ [Recv step_right; Recv step_wrong])
                 (boot 0%nat)))
  = [ok_reply (VDict [("observation_space", VDict [("n", VInt 100)]);
                      ("action_space", VDict [("n", VInt 2)]);
                      ("reward_range", VList [VInt 0; VInt 1]);
                      ("session_id", VStr "abc123")]);
     ok_reply (VDict [("obs", VInt 1); ("reward", VInt 1);
                      ("done", VBool false); ("info", VDict []);
                      ("session_id", VStr "abc123")]);
     error_reply "<class 'Exception'>: Wrong session id"].
Proof. reflexivity. Qed.

(** A request that arrives before any connection was accepted finds no
    counter, and [run_main] ends on the AttributeError. *)
Example request_before_accept :
  main_alive (run [Recv step_right] (boot 0%nat)) = false.
Proof. reflexivity. Qed.

(** The session gate on the toy session: a step under another id, and a step
    under the id of the session. *)
Lemma session_gating_witness :
  reachable active /\ session_active active /\
  session_id active = Some "abc123" /\
  (exists w',
      handle_msg step_wrong active = (Ret tt, w') /\
      sent w' = sent active ++ [error_reply "<class 'Exception'>: Wrong session id"] /\
      env w' = env active /\ env_name w' = env_name active /\
      session_id w' = session_id active /\ calls w' = calls active) /\
  (exists w' result,
      handle_msg step_right active = (Ret tt, w') /\
      sent w' = sent active ++ [ok_reply result] /\
      subscript result "session_id" = Ret (VStr "abc123")).
Proof.
  split; [exact active_reachable|].
  split; [exact active_session_active|].
  split; [reflexivity|].
  split.
  - refine (proj1 (session_gating active Step step_wrong _ (VStr "wrong")
                     "abc123" active_reachable active_session_active
                     eq_refl (request_is_request _ _) eq_refl) _).
    discriminate.
  - refine (proj2 (session_gating active Step step_right _ (VStr "abc123")
                     "abc123" active_reachable active_session_active
                     eq_refl (request_is_request _ _) eq_refl) eq_refl _ _).
    + exists (VInt 0). reflexivity.
    + intros e He a Ha. inversion He. inversion Ha.
      do 2 eexists. reflexivity.
Defined.

(** A second setup on the toy session. *)
Lemma setup_while_active_witness :
  reachable active /\ session_active active /\
  exists w',
    handle_msg (request "setup" [("env_name", VStr "Toy-v0")]) active
    = (Ret tt, w') /\
    sent w' = sent active ++ [error_reply "<class 'Exception'>: Already set up"] /\
    env w' = env active /\ env_name w' = env_name active /\
    session_id w' = session_id active /\ calls w' = calls active.
Proof.
  split; [exact active_reachable|].
  split; [exact active_session_active|].
  exact (setup_while_active active _ _ active_reachable active_session_active
           (request_is_request _ _)).
Defined.

(** A message with no frame, then a setup that is never answered. *)
Lemma decode_failure_ends_run_main_witness :
  let p := run [Monitor EVENT_ACCEPTED] (boot 0%nat) in
  let e := mkExn "ValueError" "malformed message" in
  let later := [Recv (request "setup" [("env_name", VStr "Toy-v0")])] in
  main_alive p = true /\
  load_msg ([] : list value) = Raise e /\
  handle_msg [] (obj p) = (Raise e, obj p) /\
  main_alive (run (Recv [] :: later) p) = false /\
  sent (obj (run (Recv [] :: later) p)) = sent (obj p).
Proof.
  intros p e later.
  split; [reflexivity|]. split; [reflexivity|].
  exact (decode_failure_ends_run_main p [] e later eq_refl eq_refl).
Defined.

(** C4 does not hold as written: the reply to a step under another session id does
    not carry the bare message. *)
Lemma error_reply_verbatim_counterexample :
  sent (snd (handle_msg step_wrong active))
  = sent active ++ [error_reply "<class 'Exception'>: Wrong session id"] /\
  sent (snd (handle_msg step_wrong active))
  <> sent active ++ [error_reply "Wrong session id"].
Proof. split; [reflexivity | discriminate]. Qed.

(** The error reply to a step under another id, on the toy session. *)
Lemma error_reply_names_the_class_witness :
  let rpc := VDict [("method", VStr "step");
                    ("params", VDict [("action", VInt 0);
                                      ("session_id", VStr "wrong")])] in
  let params := VDict [("action", VInt 0); ("session_id", VStr "wrong")] in
  let e := Exception "Wrong session id" in
  let w1 := set_op_count (Some 2) active in
  load_msg step_wrong = Ret rpc /\
  dict_get rpc "method" = Ret (VStr "step") /\
  dict_get rpc "params" = Ret params /\
  op_count active = Some 1 /\
  dispatch (VStr "step") params (set_op_count (Some (1 + 1)) active)
  = (Raise e, w1) /\
  handle_msg step_wrong active =
    (Ret tt,
     send_multipart
       (dump_msg (envelope VNone
                    (VStr (str_type e ++ ": " ++ ex_str e)%string)))
       w1) /\
  (str_type e ++ ": " ++ ex_str e)%string <> ex_str e /\
  (VStr "step" = VStr "step" ->
   forall (given : value) (sid : string),
     subscript params "session_id" = Ret given ->
     session_id active = Some sid ->
     given <> VStr sid ->
     ex_str e = "Wrong session id" /\
     (str_type e ++ ": " ++ ex_str e)%string
     = "<class 'Exception'>: Wrong session id").
Proof.
  intros rpc params e w1.
  do 5 (split; [reflexivity|]).
  exact (error_reply_names_the_class active step_wrong rpc (VStr "step")
           params 1 e w1 eq_refl eq_refl eq_refl eq_refl eq_refl).
Defined.

(** C5 does not hold as written: after a close that succeeded the session id is
    still the server's, and a second close under it is answered with a
    result, not refused; a step under it is refused, but for the missing
    environment, not for the id. *)
Lemma close_invalidates_id_counterexample :
  let w1 := snd (handle_msg close_right active) in
  sent w1 = sent active ++ [ok_reply (VDict [("session_id", VStr "abc123")])] /\
  session_id w1 = Some "abc123" /\
  sent (snd (handle_msg close_right w1))
  = sent w1 ++ [ok_reply (VDict [("session_id", VStr "abc123")])] /\
  sent (snd (handle_msg step_right w1))
  = sent w1 ++ [error_reply "<class 'AttributeError'>: 'NoneType' object has no attribute 'step'"] /\
  sent (snd (handle_msg step_right w1))
  <> sent w1 ++ [error_reply "<class 'Exception'>: Wrong session id"].
Proof. cbv zeta. conjuncts; try reflexivity. discriminate. Qed.

(** A close on the toy session, and what comes after it. *)
Lemma close_releases_and_keeps_id_witness :
  reachable active /\ session_active active /\
  env active = Some (mkToy 0 false) /\ session_id active = Some "abc123" /\
  is_request close_right "close" (VDict [("session_id", VStr "abc123")]) /\
  subscript (VDict [("session_id", VStr "abc123")]) "session_id"
  = Ret (VStr "abc123") /\
  env_close (mkToy 0 false) = (Ret tt, mkToy 0 true) /\
  exists w1,
    handle_msg close_right active = (Ret tt, w1) /\
    sent w1 = sent active ++ [ok_reply (VDict [("session_id", VStr "abc123")])] /\
    calls w1 = calls active ++ [CallClose] /\
    env w1 = None /\ env_name w1 = VNone /\ ~ session_active w1 /\
    session_id w1 = Some "abc123" /\
    forall (g : gated) (rx2 : list value) (params2 : value),
      is_request rx2 (method_of g) params2 ->
      subscript params2 "session_id" = Ret (VStr "abc123") ->
      carries_arguments g params2 ->
      exists w2,
        handle_msg rx2 w1 = (Ret tt, w2) /\
        calls w2 = calls w1 /\ env w2 = None /\
        sent w2 =
          sent w1 ++
          [match g with
           | Close => ok_reply (VDict [("session_id", VStr "abc123")])
           | _ =>
               error_reply
                 ("<class 'AttributeError'>: 'NoneType' object has no attribute '"
                  ++ method_of g ++ "'")%string
           end].
Proof.
  split; [exact active_reachable|].
  split; [exact active_session_active|].
  do 2 (split; [reflexivity|]).
  split; [exact (request_is_request _ _)|].
  do 2 (split; [reflexivity|]).
  exact (close_releases_and_keeps_id active close_right _ "abc123"
           (mkToy 0 false) (mkToy 0 true)
           active_reachable active_session_active eq_refl eq_refl
           (request_is_request _ _) eq_refl eq_refl).
Defined.

(** C6 does not hold as written: a connection, a setup, a second connection
    accepted with no disconnect seen in between, and a step under the id of
    the first session: the step is served by the environment of the first
    session. *)
Lemma accepted_keeps_session_counterexample :
  let p := run (connect_and_setup ++ [Monitor EVENT_ACCEPTED]) (boot 0%nat) in
  env_name (obj p) = VNone /\
  session_id (obj p) = Some "abc123" /\
  env (obj p) = Some (mkToy 0 false) /\
  sent (obj (deliver p (Recv step_right)))
  = sent (obj p)
    ++ [ok_reply (VDict [("obs", VInt 1); ("reward", VInt 1);
                         ("done", VBool false); ("info", VDict []);
                         ("session_id", VStr "abc123")])] /\
  calls (obj (deliver p (Recv step_right)))
  = calls (obj p) ++ [CallStep (VInt 0)].
Proof. cbv zeta. conjuncts; reflexivity. Qed.

(** A connection accepted while the toy session is on. *)
Lemma opened_clears_name_and_counter_witness :
  let p := mkProcess active true true in
  monitor_alive p = true /\
  let p1 := deliver p (Monitor EVENT_ACCEPTED) in
  env_name (obj p1) = VNone /\ op_count (obj p1) = Some 0 /\
  ~ session_active (obj p1) /\
  env (obj p1) = env (obj p) /\ session_id (obj p1) = session_id (obj p) /\
  calls (obj p1) = calls (obj p) /\ sent (obj p1) = sent (obj p) /\
  (forall (g : gated) (rx : list value) (params given : value),
      is_request rx (method_of g) params ->
      subscript params "session_id" = Ret given ->
      (forall sid, session_id (obj p) = Some sid -> given <> VStr sid) ->
      exists msg w2,
        handle_msg rx (obj p1) = (Ret tt, w2) /\
        sent w2 = sent (obj p) ++ [error_reply msg] /\
        env w2 = env (obj p) /\ env_name w2 = VNone /\
        session_id w2 = session_id (obj p) /\ calls w2 = calls (obj p)) /\
  (forall (g : gated) (rx : list value) (params : value) (sid : string)
          (e : toy_env),
      session_id (obj p) = Some sid -> env (obj p) = Some e ->
      is_request rx (method_of g) params ->
      subscript params "session_id" = Ret (VStr sid) ->
      carries_arguments g params ->
      env_call_returns g params e ->
      exists w2 result,
        handle_msg rx (obj p1) = (Ret tt, w2) /\
        sent w2 = sent (obj p) ++ [ok_reply result] /\
        subscript result "session_id" = Ret (VStr sid)) /\
  (forall (rx : list value) (params name : value) (e : toy_env),
      is_request rx "setup" params ->
      subscript params "env_name" = Ret name ->
      make_env name = Ret e ->
      exists w2 result,
        handle_msg rx (obj p1) = (Ret tt, w2) /\
        sent w2 = sent (obj p) ++ [ok_reply result] /\
        env w2 = Some e /\ env_name w2 = name).
Proof.
  intros p. split; [reflexivity|].
  exact (opened_clears_name_and_counter p eq_refl).
Defined.

(** A disconnect while the toy session is on. *)
Lemma disconnect_closes_once_witness :
  let p := mkProcess active true true in
  monitor_alive p = true /\ session_active (obj p) /\
  let p1 := deliver p (Monitor EVENT_DISCONNECTED) in
  calls (obj p1) = calls (obj p) ++ [CallClose] /\
  env_name (obj p1) = VNone /\ ~ session_active (obj p1) /\
  (forall e e', env (obj p) = Some e -> env_close e = (Ret tt, e') ->
                env (obj p1) = None) /\
  (forall k : nat,
      calls (obj (run (repeat (Monitor EVENT_DISCONNECTED) k) p1))
      = calls (obj p1)) /\
  (forall (rx : list value) (params : value) (sid : string) (n : Z)
          (e e' : toy_env),
      main_alive p = true -> op_count (obj p) = Some n ->
      env (obj p) = Some e -> session_id (obj p) = Some sid ->
      is_request rx "close" params ->
      subscript params "session_id" = Ret (VStr sid) ->
      env_close e = (Ret tt, e') ->
      let q := deliver p (Recv rx) in
      calls (obj q) = calls (obj p) ++ [CallClose] /\
      forall k : nat,
        calls (obj (run (repeat (Monitor EVENT_DISCONNECTED) k) q))
        = calls (obj q)).
Proof.
  intros p. split; [reflexivity|]. split; [exact active_session_active|].
  exact (disconnect_closes_once p eq_refl active_session_active).
Defined.

(** A connection, a setup, a close, and three disconnects: one [close] on the
    environment in all. *)
Example close_then_disconnects :
  calls (obj (run (connect_and_setup
                   ++ [Recv close_right]
                   ++ repeat (Monitor EVENT_DISCONNECTED) 3)
                  (boot 0%nat)))
  = [CallMake (VStr "Toy-v0"); CallClose].
Proof. reflexivity. Qed.

(** A connection, a setup and a disconnect with no close: the environment is
    closed once and no session is left. *)
Example abandoned_session_is_reclaimed :
  let p := run (connect_and_setup ++ [Monitor EVENT_DISCONNECTED])
               (boot 0%nat) in
  calls (obj p) = [CallMake (VStr "Toy-v0"); CallClose] /\
  env (obj p) = None /\ env_name (obj p) = VNone.
Proof. cbv zeta. conjuncts; reflexivity. Qed.

(** A step with a negative action on the toy session, then a reset. *)
Lemma step_failure_is_isolated_witness :
  let p := mkProcess active true true in
  let e := mkToy 0 false in
  let ex := mkExn "ValueError" "negative action" in
  let params := VDict [("action", VInt (-1)); ("session_id", VStr "abc123")] in
  main_alive p = true /\ reachable (obj p) /\ session_active (obj p) /\
  env (obj p) = Some e /\ session_id (obj p) = Some "abc123" /\
  is_request step_failing "step" params /\
  subscript params "session_id" = Ret (VStr "abc123") /\
  subscript params "action" = Ret (VInt (-1)) /\
  env_step (VInt (-1)) e = (Raise ex, e) /\
  let p1 := deliver p (Recv step_failing) in
  main_alive p1 = true /\
  sent (obj p1) = sent (obj p) ++ [error_reply (error_text ex)] /\
  env_name (obj p1) = env_name (obj p) /\
  session_id (obj p1) = Some "abc123" /\ env (obj p1) = Some e /\
  forall (rx2 : list value) (params2 obs : value) (e'' : toy_env),
    is_request rx2 "reset" params2 ->
    subscript params2 "session_id" = Ret (VStr "abc123") ->
    env_reset e = (Ret obs, e'') ->
    let p2 := deliver p1 (Recv rx2) in
    main_alive p2 = true /\
    sent (obj p2) =
      sent (obj p1) ++
      [ok_reply (VDict [("obs", obs); ("session_id", VStr "abc123")])] /\
    env (obj p2) = Some e''.
Proof.
  intros p e ex params.
  split; [reflexivity|]. split; [exact active_reachable|].
  split; [exact active_session_active|].
  do 2 (split; [reflexivity|]).
  split; [exact (request_is_request _ _)|].
  do 3 (split; [reflexivity|]).
  exact (step_failure_is_isolated p step_failing params (VInt (-1)) "abc123"
           e e ex eq_refl active_reachable active_session_active
           eq_refl eq_refl (request_is_request _ _) eq_refl eq_refl eq_refl).
Defined.

(** A step that fails in the environment and the reset that follows it. *)
Example failing_step_then_reset :
  let p := run (connect_and_setup ++ [Recv step_failing; Recv reset_right])
               (boot 0%nat) in
  main_alive p = true /\
  sent (obj p)
  = [setup_reply;
     error_reply "<class 'ValueError'>: negative action";
     ok_reply (VDict [("obs", VInt 0); ("session_id", VStr "abc123")])].
Proof. cbv zeta. conjuncts; reflexivity. Qed.

(** The expansion on the URLs of the toy network. *)
Example expand_url_bound :
  @expand_url
    {| environ := fun n => if (n =? "HOST")%string then Some "10.0.0.7" else None |}
    "tcp://$HOST:6911"
  = ("tcp://10.0.0.7:6911"%string, []).
Proof. reflexivity. Qed.

Example expand_url_mixed :
  expand_url "tcp://$HOST:$PORT/x$$a-$"
  = ("tcp://:/x$-$"%string,
     ["No environment var $HOST defined"%string;
      "No environment var $PORT defined"%string;
      "No environment var $a defined"%string]).
Proof. reflexivity. Qed.

(** The URL [tcp://$HOST:6911] with no variable set. *)
Lemma unbound_variable_expands_to_empty_witness :
  let kwargs := [("env_name", VStr "Toy-v0")] in
  ("HOST" <> "")%string /\
  take_word ("HOST" ++ ":6911") = "HOST"%string /\
  environ "HOST" = None /\
  let u := ("tcp://" ++ "$" ++ "HOST" ++ ":6911")%string in
  let u' := (fst (expand_url "tcp://") ++ fst (expand_url ":6911"))%string in
  let ws :=
    snd (expand_url "tcp://")
    ++ ["No environment var $" ++ "HOST" ++ " defined"]%string
    ++ snd (expand_url ":6911") in
  expand_url u = (u', ws) /\
  (forall p0 : list (list value),
      zmq_connect u' = Ret p0 ->
      exists o (c' : client (multipart := list value)) s more,
        GymProxyClient u kwargs new_client = (o, c') /\
        proxy c' = Some s /\ url s = u' /\
        warnings c' = ws /\
        requests s
        = dump_msg (request_envelope "setup" (VDict kwargs)) :: more) /\
  (forall e : exn,
      zmq_connect (multipart := list value) (P := list (list value)) u'
      = Raise e ->
      GymProxyClient u kwargs new_client = (Raise e, warn ws new_client)).
Proof.
  intros kwargs.
  split; [discriminate|]. do 2 (split; [reflexivity|]).
  refine (unbound_variable_expands_to_empty
            (multipart := list value) (P := list (list value))
            "tcp://" "HOST" ":6911" kwargs _ eq_refl eq_refl).
  discriminate.
Defined.

(** C9 does not hold as written: with [HOST] unset the URL [$HOST] expands to
    the empty string, the socket library refuses the empty address, and the
    construction fails on that refusal, with the warning logged and no
    request sent. *)
Lemma unbound_token_stops_construction_counterexample :
  let r := GymProxyClient (multipart := list value) (P := list (list value))
             "$HOST" [("env_name", VStr "Toy-v0")] new_client in
  environ "HOST" = None /\
  expand_url "$HOST" = (""%string, ["No environment var $HOST defined"%string]) /\
  fst r = Raise (mkExn "ZMQError" "Invalid argument") /\
  warnings (snd r) = ["No environment var $HOST defined"%string] /\
  proxy (snd r) = None.
Proof. cbv zeta. conjuncts; reflexivity. Qed.

(** A token with letters outside ASCII: the name goes as far as the word
    characters of the str go. *)
Example expand_url_unicode :
  expand_url "tcp://$HÖST:1"
  = ("tcp://:1"%string, ["No environment var $HÖST defined"%string]).
Proof. reflexivity. Qed.

(** The constructor against the three peers of the toy network. *)
Example constructor_returns :
  fst (GymProxyClient (multipart := list value) (P := list (list value))
         "tcp://127.0.0.1:6911" [("env_name", VStr "Toy-v0")] new_client)
  = Ret tt.
Proof. reflexivity. Qed.

Example constructor_raises_on_refused_reset :
  fst (GymProxyClient (multipart := list value) (P := list (list value))
         "tcp://127.0.0.1:6912" [("env_name", VStr "Toy-v0")] new_client)
  = Raise (Exception "<class 'Exception'>: Wrong session id").
Proof. reflexivity. Qed.

Example constructor_raises_on_other_session :
  fst (GymProxyClient (multipart := list value) (P := list (list value))
         "tcp://127.0.0.1:6913" [("env_name", VStr "Toy-v0")] new_client)
  = Raise (Exception "Wrong session id").
Proof. reflexivity. Qed.

(** The constructor against the peer that answers the reset under another
    session id. *)
Lemma constructor_resets_witness :
  let u := "tcp://127.0.0.1:6913"%string in
  let kwargs := [("env_name", VStr "Toy-v0")] in
  let p0 := [setup_reply; reset_reply "zzz999"] in
  let p1 := [reset_reply "zzz999"] in
  let p2 : list (list value) := [] in
  let ans1 := envelope
                (VDict [("observation_space", VDict [("n", VInt 100)]);
                        ("action_space", VDict [("n", VInt 2)]);
                        ("reward_range", VList [VInt 0; VInt 1]);
                        ("session_id", VStr "abc123")])
                VNone in
  let res1 := VDict [("observation_space", VDict [("n", VInt 100)]);
                     ("action_space", VDict [("n", VInt 2)]);
                     ("reward_range", VList [VInt 0; VInt 1]);
                     ("session_id", VStr "abc123")] in
  let sid := VStr "abc123" in
  let ans2 := envelope (VDict [("obs", VInt 0); ("session_id", VStr "zzz999")])
                       VNone in
  zmq_connect (fst (expand_url u)) = Ret p0 /\
  exchange (dump_msg (request_envelope "setup" (VDict kwargs))) p0
  = (setup_reply, p1) /\
  load_msg setup_reply = Ret ans1 /\
  subscript ans1 "error" = Ret VNone /\
  subscript ans1 "result" = Ret res1 /\
  subscript res1 "action_space" = Ret (VDict [("n", VInt 2)]) /\
  subscript res1 "observation_space" = Ret (VDict [("n", VInt 100)]) /\
  subscript res1 "reward_range" = Ret (VList [VInt 0; VInt 1]) /\
  py_tuple (VList [VInt 0; VInt 1]) = Ret (VList [VInt 0; VInt 1]) /\
  subscript res1 "session_id" = Ret sid /\
  exchange
    (dump_msg (request_envelope "reset" (VDict [("session_id", sid)]))) p1
  = (reset_reply "zzz999", p2) /\
  load_msg (reset_reply "zzz999") = Ret ans2 /\
  exists o (c' : client (multipart := list value) (P := list (list value))) s,
    GymProxyClient u kwargs new_client = (o, c') /\
    proxy c' = Some s /\
    requests s
    = [dump_msg (request_envelope "setup" (VDict kwargs));
       dump_msg (request_envelope "reset" (VDict [("session_id", sid)]))] /\
    (forall err,
        subscript ans2 "error" = Ret err -> err <> VNone ->
        o = Raise (Exception (py_str err))) /\
    (forall res2 got,
        subscript ans2 "error" = Ret VNone ->
        subscript ans2 "result" = Ret res2 ->
        subscript res2 "session_id" = Ret got ->
        py_ne got sid = true ->
        o = Raise (Exception "Wrong session id")) /\
    (forall res2 got obs,
        subscript ans2 "error" = Ret VNone ->
        subscript ans2 "result" = Ret res2 ->
        subscript res2 "session_id" = Ret got ->
        py_ne got sid = false ->
        subscript res2 "obs" = Ret obs ->
        o = Ret tt).
Proof.
  intros u kwargs p0 p1 p2 ans1 res1 sid ans2.
  do 12 (split; [reflexivity|]).
  exact (constructor_resets u kwargs p0 p1 p2 setup_reply (reset_reply "zzz999")
           ans1 res1 _ _ _ _ sid ans2
           eq_refl eq_refl eq_refl eq_refl eq_refl eq_refl eq_refl eq_refl
           eq_refl eq_refl eq_refl eq_refl).
Defined.

(** The client constructed against the server: the setup and the reset are
    both served, and the client ends with the session id the server drew. *)
Example client_against_server :
  let r := @GymProxyClient _ _ _ _ _ loopback
             "tcp://127.0.0.1:6911" [("env_name", VStr "Toy-v0")] new_client in
  fst r = Ret tt /\
  c_session_id (snd r) = Some (VStr "abc123") /\
  option_map (fun s => calls (obj (sock s))) (proxy (snd r))
  = Some [CallMake (VStr "Toy-v0"); CallReset] /\
  option_map (fun s => session_id (obj (sock s))) (proxy (snd r))
  = Some (Some "abc123").
Proof. cbv zeta. conjuncts; reflexivity. Qed.

(** A disconnect seen before the next connection is accepted: a step under
    the id of the first session is refused for want of an environment. *)
Example step_after_reconnect :
  sent (obj (run (connect_and_setup
                  ++ [Monitor EVENT_DISCONNECTED; Monitor EVENT_ACCEPTED;
                      Recv step_right])
                 (boot 0%nat)))
  = [setup_reply;
     error_reply "<class 'AttributeError'>: 'NoneType' object has no attribute 'step'"].
Proof. reflexivity. Qed.

(** * The further properties on the concrete instance *)

Import ToyExtra.

(** A setup, a step and a refused step: three requests, three replies. *)
Lemma one_reply_per_request_witness :
  let evs := connect_and_setup ++ [Recv step_right; Recv step_wrong] in
  main_alive (run evs (boot 0%nat)) = true /\
  length (sent (obj (run evs (boot 0%nat))))
  = (length (sent (obj (boot 0%nat : toy_process))) + requests_in evs)%nat.
Proof.
  intros evs. split; [reflexivity|].
  exact (one_reply_per_request evs (boot 0%nat) eq_refl).
Defined.

(** A request with no [method] in it. *)
Lemma unknown_method_is_refused_witness :
  let rx := [VDict [("params", VDict [])]] in
  let rpc := VDict [("params", VDict [])] in
  op_count active = Some 1 /\
  load_msg rx = Ret rpc /\
  dict_get rpc "method" = Ret VNone /\
  dict_get rpc "params" = Ret (VDict []) /\
  VNone <> VStr "step" /\ VNone <> VStr "reset" /\ VNone <> VStr "setup" /\
  VNone <> VStr "close" /\ VNone <> VStr "render" /\
  handle_msg rx active =
    (Ret tt,
     send_multipart
       (error_reply
          ("<class 'Exception'>: unknown method " ++ py_str VNone)%string)
       (set_op_count (Some (1 + 1)) active)).
Proof.
  intros rx rpc. do 4 (split; [reflexivity|]).
  do 5 (split; [discriminate|]).
  refine (unknown_method_is_refused active rx rpc VNone (VDict []) 1
            eq_refl eq_refl eq_refl eq_refl _ _ _ _ _); discriminate.
Defined.

(** Requests for no method and for another name, run. *)
Example unknown_methods :
  sent (obj (run (connect_and_setup
                  ++ [Recv [VDict [("params", VDict [])]];
                      Recv (request "seed" [])])
                 (boot 0%nat)))
  = [setup_reply;
     error_reply "<class 'Exception'>: unknown method None";
     error_reply "<class 'Exception'>: unknown method seed"].
Proof. reflexivity. Qed.

(** A step with no session id in it. *)
Lemma request_without_session_id_witness :
  op_count active = Some 1 /\
  is_request step_without_id "step" (VDict [("action", VInt 0)]) /\
  subscript (VDict [("action", VInt 0)]) "session_id"
  = Raise (KeyError "session_id") /\
  handle_msg step_without_id active =
    (Ret tt,
     send_multipart (error_reply (error_text (KeyError "session_id")))
                    (set_op_count (Some (1 + 1)) active)).
Proof.
  split; [reflexivity|]. split; [exact (request_is_request _ _)|].
  split; [reflexivity|].
  exact (request_without_session_id active Step step_without_id _ _ 1
           eq_refl (request_is_request _ _) eq_refl).
Defined.

(** The first setup after a connection accepted. *)
Lemma setup_opens_session_witness :
  let rx := request "setup" [("env_name", VStr "Toy-v0")] in
  let params := VDict [("env_name", VStr "Toy-v0")] in
  let e := mkToy 0 false in
  env_name accepted = VNone /\ op_count accepted = Some 0 /\
  is_request rx "setup" params /\
  subscript params "env_name" = Ret (VStr "Toy-v0") /\
  make_env (VStr "Toy-v0") = Ret e /\
  let cookie := fst (mk_random_cookie (rng accepted)) in
  exists w1,
    handle_msg rx accepted = (Ret tt, w1) /\
    sent w1 =
      sent accepted ++
      [ok_reply (VDict [("observation_space", observation_space e);
                        ("action_space", action_space e);
                        ("reward_range", reward_range e);
                        ("session_id", VStr cookie)])] /\
    calls w1 = calls accepted ++ [CallMake (VStr "Toy-v0")] /\
    env w1 = Some e /\ env_name w1 = VStr "Toy-v0" /\
    session_id w1 = Some cookie /\
    rng w1 = snd (mk_random_cookie (rng accepted)) /\
    forall (g : gated) (rx2 : list value) (params2 : value),
      is_request rx2 (method_of g) params2 ->
      subscript params2 "session_id" = Ret (VStr cookie) ->
      carries_arguments g params2 ->
      env_call_returns g params2 e ->
      exists w2 result,
        handle_msg rx2 w1 = (Ret tt, w2) /\
        sent w2 = sent w1 ++ [ok_reply result] /\
        subscript result "session_id" = Ret (VStr cookie).
Proof.
  intros rx params e.
  do 2 (split; [reflexivity|]). split; [exact (request_is_request _ _)|].
  do 2 (split; [reflexivity|]).
  exact (setup_opens_session accepted rx params (VStr "Toy-v0") 0 e
           eq_refl eq_refl (request_is_request _ _) eq_refl eq_refl).
Defined.

(** A setup for a name the factory does not know. *)
Lemma setup_refused_by_factory_witness :
  let rx := request "setup" [("env_name", VStr "Nope-v0")] in
  let params := VDict [("env_name", VStr "Nope-v0")] in
  let ex := mkExn "Error" "no such environment" in
  env_name accepted = VNone /\ op_count accepted = Some 0 /\
  is_request rx "setup" params /\
  subscript params "env_name" = Ret (VStr "Nope-v0") /\
  make_env (E := toy_env) (VStr "Nope-v0") = Raise ex /\
  handle_msg rx accepted =
    (Ret tt,
     send_multipart (error_reply (error_text ex))
       (log_call (CallMake (VStr "Nope-v0"))
          (set_op_count (Some (0 + 1)) accepted))).
Proof.
  intros rx params ex.
  do 2 (split; [reflexivity|]). split; [exact (request_is_request _ _)|].
  do 2 (split; [reflexivity|]).
  exact (setup_refused_by_factory accepted rx params (VStr "Nope-v0") 0 ex
           eq_refl eq_refl (request_is_request _ _) eq_refl eq_refl).
Defined.

(** A step of the toy session. *)
Lemma step_passes_through_witness :
  let params := VDict [("action", VInt 0); ("session_id", VStr "abc123")] in
  let e := mkToy 0 false in
  let e' := mkToy 1 false in
  op_count active = Some 1 /\ session_id active = Some "abc123" /\
  env active = Some e /\
  is_request step_right "step" params /\
  subscript params "session_id" = Ret (VStr "abc123") /\
  subscript params "action" = Ret (VInt 0) /\
  env_step (VInt 0) e = (Ret (VInt 1, VInt 1, VBool false, VDict []), e') /\
  exists w',
    handle_msg step_right active = (Ret tt, w') /\
    sent w' =
      sent active ++
      [ok_reply (VDict [("obs", VInt 1); ("reward", VInt 1);
                        ("done", VBool false); ("info", VDict []);
                        ("session_id", VStr "abc123")])] /\
    calls w' = calls active ++ [CallStep (VInt 0)] /\
    env w' = Some e' /\ env_name w' = env_name active /\
    session_id w' = Some "abc123" /\ op_count w' = Some (1 + 1).
Proof.
  intros params e e'.
  do 3 (split; [reflexivity|]). split; [exact (request_is_request _ _)|].
  do 3 (split; [reflexivity|]).
  exact (step_passes_through active step_right params (VInt 0) (VInt 1)
           (VInt 1) (VBool false) (VDict []) "abc123" 1 e e'
           eq_refl eq_refl eq_refl (request_is_request _ _)
           eq_refl eq_refl eq_refl).
Defined.

(** A render of the toy session. *)
Lemma render_passes_through_witness :
  let params := VDict [("mode", VStr "human"); ("close", VBool false);
                       ("session_id", VStr "abc123")] in
  let e := mkToy 0 false in
  op_count active = Some 1 /\ session_id active = Some "abc123" /\
  env active = Some e /\
  is_request render_right "render" params /\
  subscript params "session_id" = Ret (VStr "abc123") /\
  (forall mode close img e',
      subscript params "mode" = Ret mode ->
      subscript params "close" = Ret close ->
      env_render mode close e = (Ret img, e') ->
      exists w',
        handle_msg render_right active = (Ret tt, w') /\
        sent w' =
          sent active ++
          [ok_reply (VDict [("img", img); ("session_id", VStr "abc123")])] /\
        calls w' = calls active ++ [CallRender mode close] /\
        env w' = Some e') /\
  (forall ex,
      subscript params "mode" = Raise ex \/
      (exists mode, subscript params "mode" = Ret mode /\
                    subscript params "close" = Raise ex) ->
      exists w',
        handle_msg render_right active = (Ret tt, w') /\
        sent w' = sent active ++ [error_reply (error_text ex)] /\
        calls w' = calls active /\ env w' = Some e).
Proof.
  intros params e.
  do 3 (split; [reflexivity|]). split; [exact (request_is_request _ _)|].
  split; [reflexivity|].
  exact (render_passes_through active render_right params "abc123" 1 e
           eq_refl eq_refl eq_refl (request_is_request _ _) eq_refl).
Defined.

(** A render of the toy session, run. *)
Example render_is_served :
  sent (snd (handle_msg render_right active))
  = sent active
    ++ [ok_reply (VDict [("img", VNone); ("session_id", VStr "abc123")])].
Proof. reflexivity. Qed.

(** The URL [tcp://$HOST:6911] with [HOST] set. *)
Lemma bound_variable_is_substituted_witness :
  ("HOST" <> "")%string /\
  take_word ("HOST" ++ ":6911") = "HOST"%string /\
  environ (Environ := host_environ) "HOST" = Some "10.0.0.7"%string /\
  expand_url (H := host_environ) ("tcp://" ++ "$" ++ "HOST" ++ ":6911")
  = ((fst (expand_url (H := host_environ) "tcp://") ++ "10.0.0.7"
      ++ fst (expand_url (H := host_environ) ":6911"))%string,
     snd (expand_url (H := host_environ) "tcp://")
     ++ snd (expand_url (H := host_environ) ":6911")).
Proof.
  split; [discriminate|]. do 2 (split; [reflexivity|]).
  refine (bound_variable_is_substituted (H := host_environ)
            "tcp://" "HOST" ":6911" "10.0.0.7" _ eq_refl eq_refl).
  discriminate.
Defined.

(** A [$] before a dash. *)
Lemma lone_dollar_is_kept_witness :
  take_word "-b" = ""%string /\
  expand_url ("a" ++ "$" ++ "-b")
  = ((fst (expand_url "a") ++ "$" ++ fst (expand_url "-b"))%string,
     snd (expand_url "a") ++ snd (expand_url "-b")).
Proof.
  split; [reflexivity|].
  exact (lone_dollar_is_kept "a" "-b" eq_refl).
Defined.

(** The default URL of the client. *)
Lemma expand_url_without_dollar_witness :
  dollar_free "tcp://127.0.0.1:6911" = true /\
  expand_url "tcp://127.0.0.1:6911" = ("tcp://127.0.0.1:6911"%string, []).
Proof.
  split; [reflexivity|].
  exact (expand_url_without_dollar "tcp://127.0.0.1:6911" eq_refl).
Defined.

(** Two tokens, every name set. *)
Lemma all_bound_no_warning_witness :
  (forall n, environ (Environ := full_environ) n <> None) /\
  snd (expand_url (H := full_environ) "tcp://$HOST:$PORT") = [].
Proof.
  split; [discriminate|].
  refine (all_bound_no_warning (H := full_environ) "tcp://$HOST:$PORT" _).
  discriminate.
Defined.

(** A reset call to the peer that refuses it. *)
Lemma rpc_one_exchange_witness :
  let params := VDict [("session_id", VStr "abc123")] in
  let s := mkSocket "tcp://127.0.0.1:6912" [reset_refused] [] in
  let tx := dump_msg (request_envelope "reset" params) in
  exchange tx (sock s) = (reset_refused, ([] : list (list value))) /\
  snd (rpc "reset" params s)
  = mkSocket (url s) [] (requests s ++ [tx]) /\
  (forall e, load_msg reset_refused = Raise e ->
             fst (rpc "reset" params s) = Raise e) /\
  (forall ans,
      load_msg reset_refused = Ret ans ->
      (forall e, subscript ans "error" = Raise e ->
                 fst (rpc "reset" params s) = Raise e) /\
      (forall msg, subscript ans "error" = Ret (VStr msg) ->
                   fst (rpc "reset" params s) = Raise (Exception msg)) /\
      (subscript ans "error" = Ret VNone ->
       fst (rpc "reset" params s) = subscript ans "result")).
Proof.
  intros params s tx. split; [reflexivity|].
  exact (rpc_one_exchange "reset" params s reset_refused [] eq_refl).
Defined.

(** The call above, run: the text of the server comes out as it is. *)
Example rpc_raises_the_server_text :
  fst (rpc "reset" (VDict [("session_id", VStr "abc123")])
           (mkSocket "tcp://127.0.0.1:6912" [reset_refused] []))
  = Raise (Exception "<class 'Exception'>: Wrong session id").
Proof. reflexivity. Qed.

(** A step whose reply comes back under another session id. *)
Lemma step_checks_the_reply_witness :
  let c := client_on "abc123" [step_reply "zzz999"] in
  let r := VDict [("obs", VInt 1); ("reward", VInt 1);
                  ("done", VBool false); ("info", VDict []);
                  ("session_id", VStr "zzz999")] in
  let c1 := set_proxy
              (mkSocket "tcp://127.0.0.1:6911" []
                 [dump_msg (request_envelope "step"
                              (VDict [("action", VInt 0);
                                      ("session_id", VStr "abc123")]))])
              c in
  c_session_id c = Some (VStr "abc123") /\
  proxy_rpc "step" (VDict [("action", VInt 0); ("session_id", VStr "abc123")]) c
  = (Ret r, c1) /\
  forall got,
    subscript r "session_id" = Ret got ->
    (py_ne got (VStr "abc123") = true ->
     _step (VInt 0) c = (Raise (Exception "Wrong session id"), c1)) /\
    (py_ne got (VStr "abc123") = false ->
     forall obs reward done info,
       subscript r "obs" = Ret obs ->
       subscript r "reward" = Ret reward ->
       subscript r "done" = Ret done ->
       subscript r "info" = Ret info ->
       _step (VInt 0) c = (Ret (obs, reward, done, info), c1)).
Proof.
  intros c r c1. do 2 (split; [reflexivity|]).
  exact (step_checks_the_reply (VInt 0) (VStr "abc123") c c1 (Ret r)
           eq_refl eq_refl).
Defined.

(** A reset answered under the session id of the client. *)
Lemma reset_and_render_check_the_reply_witness :
  let c := client_on "abc123" [reset_reply "abc123"] in
  let r := VDict [("obs", VInt 0); ("session_id", VStr "abc123")] in
  let sid := VStr "abc123" in
  c_session_id c = Some sid /\
  subscript r "session_id" = Ret sid /\
  (forall c1,
      proxy_rpc "reset" (VDict [("session_id", sid)]) c = (Ret r, c1) ->
      _reset c
      = (if py_ne sid sid then Raise (Exception "Wrong session id")
         else subscript r "obs",
         c1)) /\
  (forall c2,
      proxy_rpc "render"
                (VDict [("mode", VStr "human"); ("close", VBool false);
                        ("session_id", sid)]) c
      = (Ret r, c2) ->
      _render (VStr "human") (VBool false) c
      = (if py_ne sid sid then Raise (Exception "Wrong session id")
         else subscript r "img",
         c2)).
Proof.
  intros c r sid. do 2 (split; [reflexivity|]).
  split; intros cx;
    apply (reset_and_render_check_the_reply (VStr "human") (VBool false)
             sid r sid c cx cx eq_refl eq_refl).
Defined.

(** The constructor asking the server for a name the factory does not
    know. *)
Lemma constructor_stops_on_refused_setup_witness :
  let u := "tcp://127.0.0.1:6911"%string in
  let kwargs := [("env_name", VStr "Nope-v0")] in
  let p0 : toy_process := deliver (boot 0%nat) (Monitor EVENT_ACCEPTED) in
  let tx := dump_msg (request_envelope "setup" (VDict kwargs)) in
  let p1 := deliver p0 (Recv tx) in
  let err := VStr "<class 'Error'>: no such environment" in
  let ans1 := envelope VNone err in
  zmq_connect (Transport := loopback) (fst (expand_url u)) = Ret p0 /\
  exchange (Transport := loopback) tx p0 = ([ans1], p1) /\
  load_msg [ans1] = Ret ans1 /\
  subscript ans1 "error" = Ret err /\
  err <> VNone /\
  exists c' : client,
    @GymProxyClient _ _ _ _ _ loopback u kwargs new_client
    = (Raise (Exception (py_str err)), c') /\
    proxy c' = Some (mkSocket (fst (expand_url u)) p1 [tx]) /\
    c_session_id c' = None.
Proof.
  intros u kwargs p0 tx p1 err ans1.
  do 4 (split; [reflexivity|]). split; [discriminate|].
  refine (@constructor_stops_on_refused_setup _ _ _ _ _ loopback u kwargs
            p0 p1 [ans1] ans1 err eq_refl eq_refl eq_refl eq_refl _).
  discriminate.
Defined.

(** A client of the toy session stepping through the server. *)
Lemma step_end_to_end_witness :
  let listening : toy_process := boot 0%nat in
  let p : toy_process := mkProcess active true true in
  let s := mkSocket "tcp://127.0.0.1:6911" p [] in
  let c := client_on "abc123" p in
  let e := mkToy 0 false in
  let e' := mkToy 1 false in
  let t := (VInt 1, VInt 1, VBool false, VDict []) in
  (forall v : value, load_msg (dump_msg v) = Ret v) /\
  proxy c = Some s /\ c_session_id c = Some (VStr "abc123") /\
  main_alive (sock s) = true /\
  session_id (obj (sock s)) = Some "abc123" /\
  env (obj (sock s)) = Some e /\
  op_count (obj (sock s)) = Some 1 /\
  env_step (VInt 0) e = (Ret t, e') /\
  exists (c' : client) s',
    @_step _ _ _ _ (via_server listening) (VInt 0) c = (Ret t, c') /\
    proxy c' = Some s' /\ c_session_id c' = Some (VStr "abc123") /\
    requests s'
    = requests s
      ++ [dump_msg (request_envelope "step"
                      (VDict [("action", VInt 0);
                              ("session_id", VStr "abc123")]))] /\
    main_alive (sock s') = true /\
    env (obj (sock s')) = Some e' /\
    session_id (obj (sock s')) = Some "abc123" /\
    calls (obj (sock s')) = calls (obj (sock s)) ++ [CallStep (VInt 0)].
Proof.
  intros listening p s c e e' t.
  split; [intros v; reflexivity|]. do 7 (split; [reflexivity|]).
  exact (step_end_to_end (fun v => eq_refl) listening c s (VInt 0) "abc123" 1
           e e' (Ret t) eq_refl eq_refl eq_refl eq_refl eq_refl eq_refl
           eq_refl).
Defined.

(** A new client whose setup reaches, after the monitor has handled its
    connection, a server that an earlier client left in the toy session: the
    new client and the server agree on the next cookie. *)
Lemma constructor_end_to_end_witness :
  let listening : toy_process :=
    deliver (mkProcess active true true) (Monitor EVENT_ACCEPTED) in
  let u := "tcp://127.0.0.1:6911"%string in
  let kwargs := [("env_name", VStr "Toy-v0")] in
  let e := mkToy 0 false in
  (forall v : value, load_msg (dump_msg v) = Ret v) /\
  main_alive listening = true /\
  env_name (obj listening) = VNone /\
  op_count (obj listening) = Some 0 /\
  assoc "env_name" kwargs = Some (VStr "Toy-v0") /\
  make_env (VStr "Toy-v0") = Ret e /\
  py_tuple (reward_range e) = Ret (VList [VInt 0; VInt 1]) /\
  env_reset e = (Ret (VInt 0), e) /\
  let cookie := fst (mk_random_cookie (rng (obj listening))) in
  exists (c' : client) s',
    @GymProxyClient _ _ _ _ _ (via_server listening) u kwargs new_client
    = (Ret tt, c') /\
    proxy c' = Some s' /\
    c_session_id c' = Some (VStr cookie) /\
    c_action_space c' = Some (action_space e) /\
    c_observation_space c' = Some (observation_space e) /\
    c_reward_range c' = Some (VList [VInt 0; VInt 1]) /\
    main_alive (sock s') = true /\
    session_id (obj (sock s')) = Some cookie /\
    env (obj (sock s')) = Some e /\
    env_name (obj (sock s')) = VStr "Toy-v0" /\
    calls (obj (sock s'))
    = calls (obj listening) ++ [CallMake (VStr "Toy-v0"); CallReset].
Proof.
  intros listening u kwargs e.
  split; [intros v; reflexivity|]. do 7 (split; [reflexivity|]).
  exact (constructor_end_to_end (fun v => eq_refl) listening u kwargs
           (VStr "Toy-v0") (VList [VInt 0; VInt 1]) (VInt 0) e e 0
           eq_refl eq_refl eq_refl eq_refl eq_refl eq_refl eq_refl).
Defined.

(** The two orders of the threads, run.  When the monitor has handled the
    second connection first, the second client is given the second cookie and
    the environment of the first session is never closed; when the setup
    comes first, it is refused and the constructor raises. *)
Example second_client_after_accept :
  let listening : toy_process :=
    deliver (mkProcess active true true) (Monitor EVENT_ACCEPTED) in
  let r := @GymProxyClient _ _ _ _ _ (via_server listening)
             "tcp://127.0.0.1:6911" [("env_name", VStr "Toy-v0")] new_client in
  fst r = Ret tt /\
  c_session_id (snd r) = Some (VStr "bbc123") /\
  option_map (fun s => calls (obj (sock s))) (proxy (snd r))
  = Some [CallMake (VStr "Toy-v0"); CallMake (VStr "Toy-v0"); CallReset].
Proof. cbv zeta. conjuncts; reflexivity. Qed.

Example second_client_before_accept :
  let listening : toy_process := mkProcess active true true in
  let r := @GymProxyClient _ _ _ _ _ (via_server listening)
             "tcp://127.0.0.1:6911" [("env_name", VStr "Toy-v0")] new_client in
  fst r = Raise (Exception "<class 'Exception'>: Already set up") /\
  c_session_id (snd r) = None.
Proof. cbv zeta. conjuncts; reflexivity. Qed.

(** A client with an older session id stepping through the server of the toy
    session. *)
Lemma stale_client_is_refused_witness :
  let listening : toy_process := boot 0%nat in
  let p : toy_process := mkProcess active true true in
  let s := mkSocket "tcp://127.0.0.1:6911" p [] in
  let c := client_on "zzz999" p in
  (forall v : value, load_msg (dump_msg v) = Ret v) /\
  proxy c = Some s /\ c_session_id c = Some (VStr "zzz999") /\
  main_alive (sock s) = true /\
  session_id (obj (sock s)) = Some "abc123" /\
  ("zzz999" <> "abc123")%string /\
  op_count (obj (sock s)) = Some 1 /\
  exists (c' : client) s',
    @_step _ _ _ _ (via_server listening) (VInt 0) c
    = (Raise (Exception "<class 'Exception'>: Wrong session id"), c') /\
    proxy c' = Some s' /\ main_alive (sock s') = true /\
    calls (obj (sock s')) = calls (obj (sock s)) /\
    env (obj (sock s')) = env (obj (sock s)) /\
    session_id (obj (sock s')) = Some "abc123".
Proof.
  intros listening p s c.
  split; [intros v; reflexivity|]. do 4 (split; [reflexivity|]).
  split; [discriminate|]. split; [reflexivity|].
  refine (stale_client_is_refused (fun v => eq_refl) listening c s (VInt 0)
            "zzz999" "abc123" 1 eq_refl eq_refl eq_refl eq_refl _ eq_refl).
  discriminate.
Defined.
